(** * Image editor: session, crop region, filters, annotation history, export

    A shallow embedding of the image-editing front end.  Each React
    component is a record of its state fields together with one function
    per event handler; a handler maps the state seen by the render that
    installed it to the state of the next render.  Asynchronous image
    loads ([img.onload]) are taken to complete before the next event is
    handled.

    Numbers.  DOM geometry (pointer positions, bounding boxes, element
    sizes) is finite and is carried as rationals [Q]; arithmetic on finite
    values is exact, so the rounding error of binary64 is not part of the
    model.  Where the source divides, the result is a [jsnum], which adds
    the IEEE special values a division by zero produces.  The export
    dimensions are the exception: [Download64] computes them in binary64,
    as the code does, next to the exact reading [Download]. *)

From Stdlib Require Import ZArith QArith Qround Qminmax Lqa Lia.
From Stdlib Require Import List String Bool.
From Stdlib Require Import SpecFloat.
Import ListNotations.

Open Scope Z_scope.

(* ================================================================== *)
(** ** JavaScript values shared by the components *)

Module Js.

(** A JavaScript [number]: a finite value or one of the IEEE specials.
    Zero divisors below are element sizes, hence never negative zero. *)
Inductive jsnum : Type :=
| Fin (q : Q)
| PInf
| NInf
| NaN.

Definition Qsign (q : Q) : comparison := Qcompare q 0.

Definition neg (a : jsnum) : jsnum :=
  match a with
  | Fin q => Fin (- q)
  | PInf => NInf
  | NInf => PInf
  | NaN => NaN
  end.

(** [a - b] *)
Definition sub (a b : jsnum) : jsnum :=
  match a, b with
  | NaN, _ | _, NaN => NaN
  | Fin x, Fin y => Fin (x - y)
  | Fin _, PInf => NInf
  | Fin _, NInf => PInf
  | PInf, PInf => NaN
  | PInf, _ => PInf
  | NInf, NInf => NaN
  | NInf, _ => NInf
  end.

(** an infinity of the sign of [a] scaled by the sign of [q] *)
Definition scale_inf (a : jsnum) (q : Q) : jsnum :=
  match Qsign q with
  | Eq => NaN
  | Gt => a
  | Lt => neg a
  end.

(** [a * b] *)
Definition mul (a b : jsnum) : jsnum :=
  match a, b with
  | NaN, _ | _, NaN => NaN
  | Fin x, Fin y => Fin (x * y)
  | Fin x, PInf => scale_inf PInf x
  | Fin x, NInf => scale_inf NInf x
  | PInf, Fin y => scale_inf PInf y
  | NInf, Fin y => scale_inf NInf y
  | PInf, PInf | NInf, NInf => PInf
  | PInf, NInf | NInf, PInf => NInf
  end.

(** [a / b]; a finite value over zero is an infinity of the sign of the
    numerator, zero over zero is [NaN]. *)
Definition div (a b : jsnum) : jsnum :=
  match a, b with
  | NaN, _ | _, NaN => NaN
  | Fin x, Fin y =>
      match Qsign y with
      | Eq => match Qsign x with
              | Eq => NaN
              | Gt => PInf
              | Lt => NInf
              end
      | _ => Fin (x / y)
      end
  | Fin _, _ => Fin 0
  | PInf, Fin y => match Qsign y with Lt => NInf | _ => PInf end
  | NInf, Fin y => match Qsign y with Lt => PInf | _ => NInf end
  | _, _ => NaN
  end.

Definition is_finite (a : jsnum) : bool :=
  match a with Fin _ => true | _ => false end.

(** [Math.round]: nearest integer, halves towards plus infinity. *)
Definition Math_round (q : Q) : Z := Qfloor (q + (1 # 2)).

(** [Math.max] and [Math.min] on finite arguments. *)
Definition Math_max (a b : Q) : Q := Qmax a b.
Definition Math_min (a b : Q) : Q := Qmin a b.

(** Truthiness of [string | null]: [null] and the empty string are falsy. *)
Definition truthy (v : option string) : bool :=
  match v with
  | None => false
  | Some s => negb (String.eqb s EmptyString)
  end.

(** [a || b] *)
Definition or (a b : option string) : option string :=
  if truthy a then a else b.

(** [arr[i]]: [undefined] outside the array. *)
Definition index {A : Type} (arr : list A) (i : Z) : option A :=
  if i <? 0 then None else nth_error arr (Z.to_nat i).

(** [arr.slice(0, e)]: a negative end counts from the end of the array. *)
Definition slice0 {A : Type} (arr : list A) (e : Z) : list A :=
  let len := Z.of_nat (List.length arr) in
  let stop := if e <? 0 then Z.max (len + e) 0 else Z.min e len in
  firstn (Z.to_nat stop) arr.

End Js.

Infix "||L" := Js.or (at level 50, left associativity).

(* ================================================================== *)
(** ** app/page.tsx: the editing session *)

Module Page.

Record Session : Type := mkSession {
  uploadedImage : option string;
  croppedImage : option string;
  filteredImage : option string;
  editedImage : option string;
  zoom : Z;
  rotation : Z;
  showCropper : bool;
  showFilters : bool;
  showEditor : bool;
  showDownload : bool
}.

(** [const currentImage = editedImage || filteredImage || croppedImage || uploadedImage] *)
Definition currentImage (s : Session) : option string :=
  editedImage s ||L filteredImage s ||L croppedImage s ||L uploadedImage s.

(** the [imageSrc] prop handed to each stage *)
Definition cropperSrc (s : Session) : option string :=
  editedImage s ||L filteredImage s ||L croppedImage s ||L uploadedImage s.

Definition filtersSrc (s : Session) : option string :=
  editedImage s ||L croppedImage s ||L uploadedImage s.

Definition editorSrc (s : Session) : option string :=
  filteredImage s ||L croppedImage s ||L uploadedImage s.

Definition downloadSrc (s : Session) : option string := currentImage s.

(** [reader.onload] of [handleFileSelect] *)
Definition handleFileSelect (result : string) (s : Session) : Session :=
  mkSession (Some result) None None None
            (zoom s) (rotation s)
            (showCropper s) (showFilters s) (showEditor s) (showDownload s).

Definition handleCropComplete (croppedImageSrc : string) (s : Session) : Session :=
  mkSession (uploadedImage s) (Some croppedImageSrc) None None
            100 0
            false (showFilters s) (showEditor s) (showDownload s).

Definition startCropping (s : Session) : Session :=
  mkSession (uploadedImage s) (croppedImage s) (filteredImage s) (editedImage s)
            (zoom s) (rotation s)
            true (showFilters s) (showEditor s) (showDownload s).

Definition handleFiltersApply (filteredImageSrc : string) (s : Session) : Session :=
  mkSession (uploadedImage s) (croppedImage s) (Some filteredImageSrc) None
            100 0
            (showCropper s) false (showEditor s) (showDownload s).

Definition startFiltering (s : Session) : Session :=
  mkSession (uploadedImage s) (croppedImage s) (filteredImage s) (editedImage s)
            (zoom s) (rotation s)
            (showCropper s) true (showEditor s) (showDownload s).

Definition handleEditComplete (editedImageSrc : string) (s : Session) : Session :=
  mkSession (uploadedImage s) (croppedImage s) (filteredImage s) (Some editedImageSrc)
            100 0
            (showCropper s) (showFilters s) false (showDownload s).

Definition startEditing (s : Session) : Session :=
  mkSession (uploadedImage s) (croppedImage s) (filteredImage s) (editedImage s)
            (zoom s) (rotation s)
            (showCropper s) (showFilters s) true (showDownload s).

Definition setFilteredImage (v : option string) (s : Session) : Session :=
  mkSession (uploadedImage s) (croppedImage s) v (editedImage s)
            (zoom s) (rotation s)
            (showCropper s) (showFilters s) (showEditor s) (showDownload s).

(** a result handed back to the page by the upload or by a stage *)
Inductive Applied : Type :=
| Uploaded (result : string)
| Cropped (result : string)
| Filtered (result : string)
| Edited (result : string).

Definition resultOf (a : Applied) : string :=
  match a with
  | Uploaded r | Cropped r | Filtered r | Edited r => r
  end.

Definition commit (a : Applied) (s : Session) : Session :=
  match a with
  | Uploaded r => handleFileSelect r s
  | Cropped r => handleCropComplete r s
  | Filtered r => handleFiltersApply r s
  | Edited r => handleEditComplete r s
  end.

Definition initialSession : Session :=
  mkSession None None None None 100 0 false false false false.

(** the stage the page renders: the first flag set wins *)
Inductive Stage : Type := Upload | Crop | Filter | Edit | Download | Preview.

Definition stage (s : Session) : Stage :=
  if negb (Js.truthy (uploadedImage s)) then Upload
  else if showCropper s then Crop
  else if showFilters s then Filter
  else if showEditor s then Edit
  else if showDownload s then Download
  else Preview.

(** the preview controls *)
Definition setView (z r : Z) (s : Session) : Session :=
  mkSession (uploadedImage s) (croppedImage s) (filteredImage s) (editedImage s)
            z r
            (showCropper s) (showFilters s) (showEditor s) (showDownload s).

Definition handleZoomIn (s : Session) : Session :=
  setView (Z.min (zoom s + 25) 300) (rotation s) s.

Definition handleZoomOut (s : Session) : Session :=
  setView (Z.max (zoom s - 25) 25) (rotation s) s.

(** [(prev + 90) % 360]; the remainder takes the sign of the dividend *)
Definition handleRotate (s : Session) : Session :=
  setView (zoom s) (Z.rem (rotation s + 90) 360) s.

Definition handleResetView (s : Session) : Session := setView 100 0 s.

Definition setShown (c f e d : bool) (s : Session) : Session :=
  mkSession (uploadedImage s) (croppedImage s) (filteredImage s) (editedImage s)
            (zoom s) (rotation s) c f e d.

Definition handleCropCancel (s : Session) : Session :=
  setShown false (showFilters s) (showEditor s) (showDownload s) s.

Definition handleFiltersCancel (s : Session) : Session :=
  setShown (showCropper s) false (showEditor s) (showDownload s) s.

Definition handleEditCancel (s : Session) : Session :=
  setShown (showCropper s) (showFilters s) false (showDownload s) s.

Definition startDownload (s : Session) : Session :=
  setShown (showCropper s) (showFilters s) (showEditor s) true s.

Definition handleDownloadCancel (s : Session) : Session :=
  setShown (showCropper s) (showFilters s) (showEditor s) false s.

(** the button "Choose Different Image": [setUploadedImage(null)] *)
Definition chooseDifferentImage (s : Session) : Session :=
  mkSession None (croppedImage s) (filteredImage s) (editedImage s)
            (zoom s) (rotation s)
            (showCropper s) (showFilters s) (showEditor s) (showDownload s).

(** every handler of the page *)
Inductive Event : Type :=
| FileSelected (result : string)
| CropClicked | CropCompleted (result : string) | CropCancelled
| FiltersClicked | FiltersApplied (result : string) | FiltersCancelled
| EditClicked | EditCompleted (result : string) | EditCancelled
| DownloadClicked | DownloadCancelled
| ZoomInClicked | ZoomOutClicked | RotateClicked | ResetViewClicked
| ChooseDifferentClicked.

Definition handle (ev : Event) (s : Session) : Session :=
  match ev with
  | FileSelected r => handleFileSelect r s
  | CropClicked => startCropping s
  | CropCompleted r => handleCropComplete r s
  | CropCancelled => handleCropCancel s
  | FiltersClicked => startFiltering s
  | FiltersApplied r => handleFiltersApply r s
  | FiltersCancelled => handleFiltersCancel s
  | EditClicked => startEditing s
  | EditCompleted r => handleEditComplete r s
  | EditCancelled => handleEditCancel s
  | DownloadClicked => startDownload s
  | DownloadCancelled => handleDownloadCancel s
  | ZoomInClicked => handleZoomIn s
  | ZoomOutClicked => handleZoomOut s
  | RotateClicked => handleRotate s
  | ResetViewClicked => handleResetView s
  | ChooseDifferentClicked => chooseDifferentImage s
  end.

Definition run (evs : list Event) (s : Session) : Session :=
  fold_left (fun st ev => handle ev st) evs s.

(** the zoom is between 25 and 300 in steps of 25, the rotation a quarter turn *)
Definition view_ok (s : Session) : Prop :=
  25 <= zoom s <= 300 /\ Z.rem (zoom s) 25 = 0 /\
  In (rotation s) [0; 90; 180; 270].

End Page.

(* ================================================================== *)
(** ** components/image-cropper.tsx: the draggable crop region *)

Module Cropper.

Local Open Scope Q_scope.

Record CropArea : Type := mkCropArea {
  x : Q;
  y : Q;
  width : Q;
  height : Q
}.

Record Point : Type := mkPoint { px : Q; py : Q }.

(** the container [div]: [getBoundingClientRect()] origin and client size *)
Record Container : Type := mkContainer {
  rectLeft : Q;
  rectTop : Q;
  clientWidth : Z;
  clientHeight : Z
}.

Record MouseEvent : Type := mkMouseEvent { clientX : Q; clientY : Q }.

Record State : Type := mkState {
  cropArea : CropArea;
  isDragging : bool;
  dragStart : Point;
  imageSize : Z * Z;
  containerRef : option Container
}.

(** the [useState] initial values *)
Definition initialState (c : option Container) : State :=
  mkState (mkCropArea 50 50 200 200) false (mkPoint 0 0) (0%Z, 0%Z) c.

(** [containerRef.current?.clientWidth || fallback]: absent and 0 are falsy *)
Definition sizeOr (v : option Z) (fallback : Z) : Z :=
  match v with
  | Some n => if (n =? 0)%Z then fallback else n
  | None => fallback
  end.

(** [img.onload] of the mount effect; a decoded image has positive
    natural dimensions. *)
Definition onImageLoad (imgW imgH : positive) (s : State) : State :=
  let containerWidth := sizeOr (option_map clientWidth (containerRef s)) 400 in
  let containerHeight := sizeOr (option_map clientHeight (containerRef s)) 300 in
  let scale := Js.Math_min (inject_Z containerWidth / inject_Z (Zpos imgW))
                           (inject_Z containerHeight / inject_Z (Zpos imgH)) in
  let displayWidth := inject_Z (Zpos imgW) * scale in
  let displayHeight := inject_Z (Zpos imgH) * scale in
  mkState (mkCropArea ((displayWidth - 150) / 2) ((displayHeight - 150) / 2) 150 150)
          (isDragging s) (dragStart s) (Zpos imgW, Zpos imgH) (containerRef s).


Definition handleMouseMove (e : MouseEvent) (s : State) : State :=
  if negb (isDragging s) then s else
  match containerRef s with
  | None => s
  | Some c =>
      let newX := clientX e - rectLeft c - px (dragStart s) in
      let newY := clientY e - rectTop c - py (dragStart s) in
      (* Constrain to image bounds *)
      let maxX := inject_Z (clientWidth c) - width (cropArea s) in
      let maxY := inject_Z (clientHeight c) - height (cropArea s) in
      let prev := cropArea s in
      mkState (mkCropArea (Js.Math_max 0 (Js.Math_min newX maxX))
                          (Js.Math_max 0 (Js.Math_min newY maxY))
                          (width prev) (height prev))
              (isDragging s) (dragStart s) (imageSize s) (containerRef s)
  end.

Definition handleMouseUp (s : State) : State :=
  mkState (cropArea s) false (dragStart s) (imageSize s) (containerRef s).


(** the region lies inside a [cw] by [ch] container *)
Definition contained (a : CropArea) (cw ch : Z) : Prop :=
  0 <= x a /\ 0 <= y a /\
  x a + width a <= inject_Z cw /\ y a + height a <= inject_Z ch.



End Cropper.

(* ================================================================== *)
(** ** components/image-download.tsx: export dimensions *)

(** The handlers with their arithmetic carried out exactly.  They give what
    the code gives wherever the binary64 product of the new dimension and
    the original ratio is exact; [Download64] below follows the code in
    binary64. *)
Module Download.

Inductive ImageFormat : Type := png | jpeg | webp.

Record DownloadSettings : Type := mkSettings {
  format : ImageFormat;
  quality : Z;
  filename : string;
  maintainAspectRatio : bool
}.

Record Dimensions : Type := mkDim { width : Z; height : Z }.

Record State : Type := mkState {
  settings : DownloadSettings;
  originalDimensions : Dimensions;
  customDimensions : Dimensions
}.

Definition initialState : State :=
  mkState (mkSettings png 90 "edited-image" true) (mkDim 0 0) (mkDim 0 0).

(** [img.onload] of the mount effect *)
Definition onImageLoad (imgW imgH : Z) (s : State) : State :=
  mkState (settings s) (mkDim imgW imgH) (mkDim imgW imgH).

Definition updateWidth (w : Z) (s : State) : State :=
  let prev := customDimensions s in
  let next :=
    if maintainAspectRatio (settings s) && (0 <? width (originalDimensions s))
    then
      let aspectRatio := (inject_Z (height (originalDimensions s))
                          / inject_Z (width (originalDimensions s)))%Q in
      mkDim w (Js.Math_round (inject_Z w * aspectRatio))
    else mkDim w (height prev) in
  mkState (settings s) (originalDimensions s) next.

Definition updateHeight (h : Z) (s : State) : State :=
  let prev := customDimensions s in
  let next :=
    if maintainAspectRatio (settings s) && (0 <? height (originalDimensions s))
    then
      let aspectRatio := (inject_Z (width (originalDimensions s))
                          / inject_Z (height (originalDimensions s)))%Q in
      mkDim (Js.Math_round (inject_Z h * aspectRatio)) h
    else mkDim (width prev) h in
  mkState (settings s) (originalDimensions s) next.

Definition applyPresetSize (w h : Z) (s : State) : State :=
  mkState (settings s) (originalDimensions s) (mkDim w h).

Definition setMaintainAspectRatio (b : bool) (s : State) : State :=
  let t := settings s in
  mkState (mkSettings (format t) (quality t) (filename t) b)
          (originalDimensions s) (customDimensions s).

(** the local constants of [getEstimatedFileSize] *)
Definition bytesPerPixel (t : DownloadSettings) : Q :=
  match format t with
  | png => 4
  | jpeg => 3 * (inject_Z (quality t) / 100)
  | webp => 2 * (inject_Z (quality t) / 100)
  end%Q.

Definition estimatedBytes (s : State) : Q :=
  (inject_Z (width (customDimensions s) * height (customDimensions s))
   * bytesPerPixel (settings s))%Q.

Definition estimatedMB (s : State) : Q :=
  (estimatedBytes s / inject_Z (1024 * 1024))%Q.

(** the branch that prints kilobytes *)
Definition estimateInKB (s : State) : bool :=
  negb (Qle_bool 1 (estimatedMB s)).

Definition setFormat (f : ImageFormat) (s : State) : State :=
  let t := settings s in
  mkState (mkSettings f (quality t) (filename t) (maintainAspectRatio t))
          (originalDimensions s) (customDimensions s).

End Download.

(* ================================================================== *)
(** ** Binary64 numbers *)

Module B64.

Definition prec : Z := 53.
Definition emax : Z := 1024.

Definition float : Type := spec_float.

(** the number an integer converts to *)
Definition ofZ (z : Z) : float := binary_normalize prec emax z 0 false.

Definition mul (a b : float) : float := SFmul prec emax a b.
Definition div (a b : float) : float := SFdiv prec emax a b.

(** the exact value of the finite number with sign [s], mantissa [m] and
    exponent [e] *)
Definition valueOf (s : bool) (m : positive) (e : Z) : Q :=
  let q := if 0 <=? e then inject_Z (Zpos m * 2 ^ e)
           else Zpos m # (2 ^ Z.to_pos (- e)) in
  if s then (- q)%Q else q.

(** [Math.round]: the nearest integer, halves towards plus infinity; a
    result of zero keeps the sign of the argument; infinities and NaN are
    returned as they are. *)
Definition Math_round (x : float) : float :=
  match x with
  | S754_finite s m e =>
      let z := Js.Math_round (valueOf s m e) in
      if z =? 0 then S754_zero s else ofZ z
  | _ => x
  end.

(** truthiness of a number: zero and NaN are falsy *)
Definition truthy (x : float) : bool :=
  match x with
  | S754_zero _ | S754_nan => false
  | _ => true
  end.

(** the integer part of a number, 0 for an infinity and for NaN *)
Definition truncZ (x : float) : Z :=
  match x with
  | S754_finite s m e =>
      let n := if 0 <=? e then Zpos m * 2 ^ e else Zpos m / 2 ^ (- e) in
      if s then - n else n
  | _ => 0
  end.

(** Assigning the integer [z] to [canvas.width] or [canvas.height]: the
    value is taken modulo 2^32 as an unsigned long and, above 2^31 - 1,
    replaced by the default of the attribute. *)
Definition canvasDimension (default z : Z) : Z :=
  let u := z mod 2 ^ 32 in
  if u <=? 2147483647 then u else default.

End B64.

(* ================================================================== *)
(** ** components/image-download.tsx in binary64 *)

Module Download64.

(** [customDimensions]: two numbers *)
Record Numbers : Type := mkNumbers { width : B64.float; height : B64.float }.

(** [originalDimensions] holds the natural size of the image, two
    integers. *)
Record State : Type := mkState {
  settings : Download.DownloadSettings;
  originalDimensions : Download.Dimensions;
  customDimensions : Numbers
}.

Definition initialState : State :=
  mkState (Download.mkSettings Download.png 90 "edited-image" true)
          (Download.mkDim 0 0) (mkNumbers (B64.ofZ 0) (B64.ofZ 0)).

(** [img.onload] of the mount effect *)
Definition onImageLoad (imgW imgH : Z) (s : State) : State :=
  mkState (settings s) (Download.mkDim imgW imgH)
          (mkNumbers (B64.ofZ imgW) (B64.ofZ imgH)).

Definition updateWidth (w : B64.float) (s : State) : State :=
  let prev := customDimensions s in
  let o := originalDimensions s in
  let next :=
    if Download.maintainAspectRatio (settings s) && (0 <? Download.width o)
    then
      let aspectRatio := B64.div (B64.ofZ (Download.height o))
                                 (B64.ofZ (Download.width o)) in
      mkNumbers w (B64.Math_round (B64.mul w aspectRatio))
    else mkNumbers w (height prev) in
  mkState (settings s) o next.

Definition updateHeight (h : B64.float) (s : State) : State :=
  let prev := customDimensions s in
  let o := originalDimensions s in
  let next :=
    if Download.maintainAspectRatio (settings s) && (0 <? Download.height o)
    then
      let aspectRatio := B64.div (B64.ofZ (Download.width o))
                                 (B64.ofZ (Download.height o)) in
      mkNumbers (B64.Math_round (B64.mul h aspectRatio)) h
    else mkNumbers (width prev) h in
  mkState (settings s) o next.

Definition applyPresetSize (w h : B64.float) (s : State) : State :=
  mkState (settings s) (originalDimensions s) (mkNumbers w h).

Definition setMaintainAspectRatio (b : bool) (s : State) : State :=
  let t := settings s in
  mkState (Download.mkSettings (Download.format t) (Download.quality t)
                               (Download.filename t) b)
          (originalDimensions s) (customDimensions s).

Definition extension (f : Download.ImageFormat) : string :=
  match f with
  | Download.png => "png"
  | Download.jpeg => "jpeg"
  | Download.webp => "webp"
  end.

(** What [downloadImage] asks of the platform: the size the canvas has
    after the two assignments, the arguments of [toBlob] and the name of
    the download. *)
Record Export : Type := mkExport {
  canvasWidth : Z;
  canvasHeight : Z;
  mimeType : string;
  encoderQuality : B64.float;
  downloadName : string
}.

(** [custom || original], then the assignment to the canvas attribute *)
Definition exportDimension (default : Z) (custom : B64.float) (original : Z) : Z :=
  B64.canvasDimension default
    (if B64.truthy custom then B64.truncZ custom else original).

Definition downloadImage (s : State) : Export :=
  let t := settings s in
  let '(mime, q) :=
    match Download.format t with
    | Download.png => ("image/png"%string, B64.ofZ 1)
    | Download.jpeg =>
        ("image/jpeg"%string, B64.div (B64.ofZ (Download.quality t)) (B64.ofZ 100))
    | Download.webp =>
        ("image/webp"%string, B64.div (B64.ofZ (Download.quality t)) (B64.ofZ 100))
    end in
  mkExport (exportDimension 300 (width (customDimensions s))
                            (Download.width (originalDimensions s)))
           (exportDimension 150 (height (customDimensions s))
                            (Download.height (originalDimensions s)))
           mime q
           (Download.filename t ++ "." ++ extension (Download.format t)).

End Download64.

(* ================================================================== *)
(** ** components/image-filters.tsx: the filter composer *)

Module Filters.

Record FilterValues : Type := mkFilters {
  brightness : Q;
  contrast : Q;
  saturation : Q;
  blur : Q;
  hueRotate : Q;
  sepia : Q;
  grayscale : Q;
  invert : Q
}.

Definition defaultFilters : FilterValues :=
  mkFilters 100 100 100 0 0 0 0 0.

(** One function call of a CSS filter list, [name(arg unit)]. *)
Inductive FilterFn : Type :=
| fn_brightness | fn_contrast | fn_saturate | fn_blur
| fn_hue_rotate | fn_sepia | fn_grayscale | fn_invert.

Inductive CssUnit : Type := percent | px | deg.

Record FilterCall : Type := mkCall {
  fn : FilterFn;
  arg : Q;
  unit : CssUnit
}.

(** The template literal of [generateFilterString], one entry per
    function call in the order it is written. *)
Definition generateFilterString (filterValues : FilterValues) : list FilterCall :=
  [ mkCall fn_brightness (brightness filterValues) percent;
    mkCall fn_contrast (contrast filterValues) percent;
    mkCall fn_saturate (saturation filterValues) percent;
    mkCall fn_blur (blur filterValues) px;
    mkCall fn_hue_rotate (hueRotate filterValues) deg;
    mkCall fn_sepia (sepia filterValues) percent;
    mkCall fn_grayscale (grayscale filterValues) percent;
    mkCall fn_invert (invert filterValues) percent ].

Inductive FilterKey : Type :=
| k_brightness | k_contrast | k_saturation | k_blur
| k_hueRotate | k_sepia | k_grayscale | k_invert.

(** [setFilters((prev) => ({ ...prev, [key]: value }))] *)
Definition updateFilter (key : FilterKey) (value : Q) (f : FilterValues) : FilterValues :=
  match key with
  | k_brightness => mkFilters value (contrast f) (saturation f) (blur f) (hueRotate f) (sepia f) (grayscale f) (invert f)
  | k_contrast => mkFilters (brightness f) value (saturation f) (blur f) (hueRotate f) (sepia f) (grayscale f) (invert f)
  | k_saturation => mkFilters (brightness f) (contrast f) value (blur f) (hueRotate f) (sepia f) (grayscale f) (invert f)
  | k_blur => mkFilters (brightness f) (contrast f) (saturation f) value (hueRotate f) (sepia f) (grayscale f) (invert f)
  | k_hueRotate => mkFilters (brightness f) (contrast f) (saturation f) (blur f) value (sepia f) (grayscale f) (invert f)
  | k_sepia => mkFilters (brightness f) (contrast f) (saturation f) (blur f) (hueRotate f) value (grayscale f) (invert f)
  | k_grayscale => mkFilters (brightness f) (contrast f) (saturation f) (blur f) (hueRotate f) (sepia f) value (invert f)
  | k_invert => mkFilters (brightness f) (contrast f) (saturation f) (blur f) (hueRotate f) (sepia f) (grayscale f) value
  end.

Definition applyPreset (presetFilters : FilterValues) (_ : FilterValues) : FilterValues :=
  presetFilters.

Definition resetFilters (_ : FilterValues) : FilterValues := defaultFilters.

(** The argument at which the platform defines a filter function to leave
    its input unchanged: 100% for brightness, contrast and saturate, zero
    for the others. *)
Definition neutral (c : FilterCall) : bool :=
  match fn c, unit c with
  | fn_brightness, percent | fn_contrast, percent | fn_saturate, percent =>
      Qeq_bool (arg c) 100
  | fn_blur, px | fn_hue_rotate, deg
  | fn_sepia, percent | fn_grayscale, percent | fn_invert, percent =>
      Qeq_bool (arg c) 0
  | _, _ => false
  end.

(** The 2D context is the platform's: [cssFilter c b] is the buffer the
    rasterizer produces from [b] under the single filter function [c]. *)
Section Rasterizer.

Variable Buffer : Type.
Variable cssFilter : FilterCall -> Buffer -> Buffer.

(** [ctx.filter = list; ctx.drawImage(img, 0, 0)] on a fresh canvas:
    the functions of the list are applied from left to right. *)
Definition drawImageFiltered (filter : list FilterCall) (img : Buffer) : Buffer :=
  fold_left (fun b c => cssFilter c b) filter img.

(** [img.onload] of [applyFilters]: the buffer passed to [onFiltersApply] *)
Definition applyFilters (filters : FilterValues) (img : Buffer) : Buffer :=
  drawImageFiltered (generateFilterString filters) img.

End Rasterizer.

(** A small rasterizer on integer RGB pixels, used to instantiate the
    section above: every function moves a channel [q] percent of the way
    from one value to another. *)
Definition Pixel : Type := (Z * Z * Z)%type.

Definition mix (q : Q) (a b : Z) : Z :=
  Qfloor (inject_Z a + (inject_Z b - inject_Z a) * q / 100).

Definition luma (p : Pixel) : Z :=
  let '(r, g, b) := p in (r + g + b) / 3.

Definition samplePixel (c : FilterCall) (p : Pixel) : Pixel :=
  let '(r, g, b) := p in
  let l := luma p in
  let q := arg c in
  match fn c with
  | fn_brightness => (mix q 0 r, mix q 0 g, mix q 0 b)
  | fn_contrast => (mix q 128 r, mix q 128 g, mix q 128 b)
  | fn_saturate => (mix q l r, mix q l g, mix q l b)
  | fn_blur => (mix q r l, mix q g l, mix q b l)
  | fn_hue_rotate => (mix q r g, mix q g b, mix q b r)
  | fn_sepia => (mix q r (l + 40), mix q g (l + 20), mix q b (l - 20))
  | fn_grayscale => (mix q r l, mix q g l, mix q b l)
  | fn_invert => (mix q r (255 - r), mix q g (255 - g), mix q b (255 - b))
  end.

Definition sampleFilter (c : FilterCall) (img : list Pixel) : list Pixel :=
  map (samplePixel c) img.

(** [presetFilters] *)
Definition presetFilters : list (string * FilterValues) :=
  [ ("Original"%string, defaultFilters);
    ("Vintage"%string, updateFilter k_brightness 110
                         (updateFilter k_contrast 110
                            (updateFilter k_sepia 30 defaultFilters)));
    ("B&W"%string, updateFilter k_contrast 110
                     (updateFilter k_grayscale 100 defaultFilters));
    ("Warm"%string, updateFilter k_brightness 105
                      (updateFilter k_saturation 120
                         (updateFilter k_hueRotate 15 defaultFilters)));
    ("Cool"%string, updateFilter k_brightness 95
                      (updateFilter k_saturation 110
                         (updateFilter k_hueRotate 180 defaultFilters)));
    ("High Contrast"%string, updateFilter k_brightness 105
                               (updateFilter k_contrast 150 defaultFilters));
    ("Soft"%string, updateFilter k_contrast 90
                      (updateFilter k_brightness 110
                         (updateFilter k_blur 1 defaultFilters)));
    ("Dramatic"%string, updateFilter k_brightness 90
                          (updateFilter k_saturation 130
                             (updateFilter k_contrast 140 defaultFilters))) ].

(** [filters[key]] *)
Definition getFilter (key : FilterKey) (f : FilterValues) : Q :=
  match key with
  | k_brightness => brightness f
  | k_contrast => contrast f
  | k_saturation => saturation f
  | k_blur => blur f
  | k_hueRotate => hueRotate f
  | k_sepia => sepia f
  | k_grayscale => grayscale f
  | k_invert => invert f
  end.

Definition allKeys : list FilterKey :=
  [k_brightness; k_contrast; k_saturation; k_blur;
   k_hueRotate; k_sepia; k_grayscale; k_invert].

(** the parameter set is the default one up to the value of each number *)
Definition isDefault (f : FilterValues) : bool :=
  forallb (fun k => Qeq_bool (getFilter k f) (getFilter k defaultFilters)) allKeys.

End Filters.

(* ================================================================== *)
(** ** The annotation editor (freehand and shape tools, undo history) *)

Module EditorTools.

Import Js.

Inductive Tool : Type := Brush | Text | Rectangle | Circle | Arrow.

Definition Tool_eqb (a b : Tool) : bool :=
  match a, b with
  | Brush, Brush | Text, Text | Rectangle, Rectangle
  | Circle, Circle | Arrow, Arrow => true
  | _, _ => false
  end.

(** [strokeStyle] and [lineWidth]; cap and join are always round *)
Record Pen : Type := mkPen { strokeStyle : string; lineWidth : Z }.

(** What has been painted on a canvas, in painting order.  A circle keeps
    its centre and the rim point its radius is measured to; an arrow keeps
    its two end points (the head strokes are fixed by them). *)
Inductive Paint : Type :=
| Picture (src : string)
| Segment (x0 y0 x1 y1 : jsnum) (pen : Pen)
| StrokeRect (x y w h : jsnum) (pen : Pen)
| Arc (cx cy rimX rimY : jsnum) (pen : Pen)
| ArrowPath (fromX fromY toX toY : jsnum) (pen : Pen)
| FillText (txt : string) (x y : jsnum) (font : Z) (fillStyle : string).

(** The content of a canvas, and of a data URL taken from it. *)
Definition Snapshot : Type := list Paint.

Record Canvas : Type := mkCanvas {
  width : Z;
  height : Z;
  pixels : Snapshot
}.

(** [canvas.getBoundingClientRect()] *)
Record DOMRect : Type := mkRect {
  rectLeft : Q;
  rectTop : Q;
  rectWidth : Q;
  rectHeight : Q
}.

(** a mouse event together with the layout of the canvas it was sent to *)
Record MouseEvent : Type := mkMouseEvent {
  clientX : Q;
  clientY : Q;
  rect : DOMRect
}.

Record DrawingState : Type := mkDrawing {
  tool : Tool;
  color : string;
  brushSize : Z;
  isDrawing : bool;
  lastX : jsnum;
  lastY : jsnum
}.

Record TextElement : Type := mkText {
  id : Z;
  x : jsnum;
  y : jsnum;
  text : string;
  textColor : string;
  textFontSize : Z;
  isEditing : bool
}.

Record State : Type := mkState {
  canvasRef : option Canvas;
  drawingState : DrawingState;
  textElements : list TextElement;
  newText : string;
  fontSize : Z;
  history : list Snapshot;
  historyStep : Z
}.

Definition initialState (c : option Canvas) : State :=
  mkState c (mkDrawing Brush "#ff0000" 5 false (Fin 0) (Fin 0)) [] "" 24 [] (-1).

Definition setCanvas (c : option Canvas) (s : State) : State :=
  mkState c (drawingState s) (textElements s) (newText s) (fontSize s)
          (history s) (historyStep s).

Definition setDrawingState (d : DrawingState) (s : State) : State :=
  mkState (canvasRef s) d (textElements s) (newText s) (fontSize s)
          (history s) (historyStep s).

(** canvas operations *)
Definition clearRect (c : Canvas) : Canvas :=
  mkCanvas (width c) (height c) [].

Definition drawImage (img : Snapshot) (c : Canvas) : Canvas :=
  mkCanvas (width c) (height c) (pixels c ++ img).

Definition paint (p : Paint) (c : Canvas) : Canvas :=
  mkCanvas (width c) (height c) (pixels c ++ [p]).

Definition toDataURL (c : Canvas) : Snapshot := pixels c.

Definition saveToHistory (s : State) : State :=
  match canvasRef s with
  | None => s
  | Some canvas =>
      let dataURL := toDataURL canvas in
      let newHistory := slice0 (history s) (historyStep s + 1) ++ [dataURL] in
      mkState (canvasRef s) (drawingState s) (textElements s) (newText s) (fontSize s)
              newHistory (historyStep s + 1)
  end.

(** [saveToHistory] as a closure of the render whose cursor was
    [renderStep]: the slice is cut with that cursor, the increment is
    applied to the cursor the state has. *)
Definition saveToHistoryFrom (renderStep : Z) (s : State) : State :=
  match canvasRef s with
  | None => s
  | Some canvas =>
      let dataURL := toDataURL canvas in
      let newHistory := slice0 (history s) (renderStep + 1) ++ [dataURL] in
      mkState (canvasRef s) (drawingState s) (textElements s) (newText s) (fontSize s)
              newHistory (historyStep s + 1)
  end.

(** [img.onload] of the mount effect.  The effect runs once, after the
    first render, so the [saveToHistory] it calls is the one of that render,
    where the cursor is [-1]. *)
Definition onImageLoad (imageSrc : string) (imgW imgH : Z) (s : State) : State :=
  match canvasRef s with
  | None => s
  | Some _ =>
      saveToHistoryFrom (-1) (setCanvas (Some (mkCanvas imgW imgH [Picture imageSrc])) s)
  end.

(** [img.src = history[i]] with the [onload] that clears the canvas and
    draws the loaded snapshot; nothing loads from [undefined]. *)
Definition restoreFrom (i : Z) (s : State) : option Canvas :=
  match canvasRef s, index (history s) i with
  | Some canvas, Some img => Some (drawImage img (clearRect canvas))
  | c, _ => c
  end.

Definition undo (s : State) : State :=
  if 0 <? historyStep s
  then mkState (restoreFrom (historyStep s - 1) s)
               (drawingState s) (textElements s) (newText s) (fontSize s)
               (history s) (historyStep s - 1)
  else s.

Definition redo (s : State) : State :=
  if historyStep s <? Z.of_nat (List.length (history s)) - 1
  then mkState (restoreFrom (historyStep s + 1) s)
               (drawingState s) (textElements s) (newText s) (fontSize s)
               (history s) (historyStep s + 1)
  else s.

Definition getCanvasCoordinates (canvasRef : option Canvas) (e : MouseEvent)
  : jsnum * jsnum :=
  match canvasRef with
  | None => (Fin 0, Fin 0)
  | Some canvas =>
      let scaleX := div (Fin (inject_Z (width canvas))) (Fin (rectWidth (rect e))) in
      let scaleY := div (Fin (inject_Z (height canvas))) (Fin (rectHeight (rect e))) in
      (mul (sub (Fin (clientX e)) (Fin (rectLeft (rect e)))) scaleX,
       mul (sub (Fin (clientY e)) (Fin (rectTop (rect e)))) scaleY)
  end.

(** [newText || "Sample Text"] *)
Definition textOr (a b : string) : string :=
  if String.eqb a EmptyString then b else a.

(** [now] is the reading of [Date.now()] the element id is printed from. *)
Definition startDrawing (e : MouseEvent) (now : Z) (s : State) : State :=
  let '(x, y) := getCanvasCoordinates (canvasRef s) e in
  let d := drawingState s in
  if Tool_eqb (tool d) Text
  then
    let el := mkText now x y (textOr (newText s) "Sample Text") (color d)
                     (fontSize s) true in
    mkState (canvasRef s) d (textElements s ++ [el]) (newText s) (fontSize s)
            (history s) (historyStep s)
  else
    setDrawingState (mkDrawing (tool d) (color d) (brushSize d) true x y) s.

Definition drawArrow (pen : Pen) (fromX fromY toX toY : jsnum) (c : Canvas) : Canvas :=
  paint (ArrowPath fromX fromY toX toY pen) c.

(** the [onload] of a shape preview: the snapshot, then the shape on top *)
Definition preview (shape : Paint) (s : State) (cleared : Canvas) : Canvas :=
  match index (history s) (historyStep s) with
  | Some img => paint shape (drawImage img cleared)
  | None => cleared
  end.

Definition draw (e : MouseEvent) (s : State) : State :=
  let d := drawingState s in
  if negb (isDrawing d) then s else
  match canvasRef s with
  | None => s
  | Some canvas =>
      let '(x, y) := getCanvasCoordinates (canvasRef s) e in
      let pen := mkPen (color d) (brushSize d) in
      let canvas' :=
        match tool d with
        | Brush => paint (Segment (lastX d) (lastY d) x y pen) canvas
        | Rectangle =>
            preview (StrokeRect (lastX d) (lastY d)
                                (sub x (lastX d)) (sub y (lastY d)) pen)
                    s (clearRect canvas)
        | Circle =>
            preview (Arc (lastX d) (lastY d) x y pen) s (clearRect canvas)
        | Arrow =>
            match index (history s) (historyStep s) with
            | Some img =>
                drawArrow pen (lastX d) (lastY d) x y
                          (drawImage img (clearRect canvas))
            | None => clearRect canvas
            end
        | Text => canvas
        end in
      mkState (Some canvas')
              (mkDrawing (tool d) (color d) (brushSize d) (isDrawing d) x y)
              (textElements s) (newText s) (fontSize s)
              (history s) (historyStep s)
  end.

Definition stopDrawing (s : State) : State :=
  let d := drawingState s in
  if isDrawing d
  then saveToHistory
         (setDrawingState
            (mkDrawing (tool d) (color d) (brushSize d) false (lastX d) (lastY d)) s)
  else s.

Definition fillText (t : TextElement) : Paint :=
  FillText (text t) (x t) (y t) (textFontSize t) (textColor t).

Definition renderTextElements (s : State) : State :=
  match canvasRef s with
  | None => s
  | Some canvas =>
      setCanvas
        (Some (fold_left (fun c t => paint (fillText t) c) (textElements s) canvas)) s
  end.

Definition applyEdits (s : State) : option Snapshot :=
  option_map toDataURL (canvasRef s).

Definition selectTool (t : Tool) (s : State) : State :=
  let d := drawingState s in
  setDrawingState (mkDrawing t (color d) (brushSize d) (isDrawing d) (lastX d) (lastY d)) s.

Definition selectColor (c : string) (s : State) : State :=
  let d := drawingState s in
  setDrawingState (mkDrawing (tool d) c (brushSize d) (isDrawing d) (lastX d) (lastY d)) s.

Definition updateBrushSize (n : Z) (s : State) : State :=
  let d := drawingState s in
  setDrawingState (mkDrawing (tool d) (color d) n (isDrawing d) (lastX d) (lastY d)) s.

(** What the component does on each input.  A pointer-down runs
    [startDrawing]; with the text tool that replaces [textElements], so the
    effect that depends on it runs [renderTextElements] after the render. *)
Inductive Event : Type :=
| ImageLoaded (imageSrc : string) (imgW imgH : Z)
| MouseDown (e : MouseEvent) (now : Z)
| MouseMove (e : MouseEvent)
| MouseUp
| MouseLeave
| ClickUndo
| ClickRedo
| ClickTool (t : Tool).

Definition pointerDown (e : MouseEvent) (now : Z) (s : State) : State :=
  let s' := startDrawing e now s in
  if Tool_eqb (tool (drawingState s)) Text then renderTextElements s' else s'.

Definition handle (ev : Event) (s : State) : State :=
  match ev with
  | ImageLoaded src w h => onImageLoad src w h s
  | MouseDown e now => pointerDown e now s
  | MouseMove e => draw e s
  | MouseUp | MouseLeave => stopDrawing s
  | ClickUndo => undo s
  | ClickRedo => redo s
  | ClickTool t => selectTool t s
  end.

Definition run (evs : list Event) (s : State) : State :=
  fold_left (fun st ev => handle ev st) evs s.

Definition isImageLoaded (ev : Event) : bool :=
  match ev with
  | ImageLoaded _ _ _ => true
  | _ => false
  end.

(** no image load among the events *)
Definition loadFree (evs : list Event) : bool :=
  forallb (fun ev => negb (isImageLoaded ev)) evs.

(** the primitive a shape tool strokes for the anchor [(ax, ay)] and the
    pointer at [(x, y)]; the brush strokes the segment between them *)
Definition shapeFor (t : Tool) (ax ay x y : jsnum) (pen : Pen) : option Paint :=
  match t with
  | Brush => Some (Segment ax ay x y pen)
  | Rectangle => Some (StrokeRect ax ay (sub x ax) (sub y ay) pen)
  | Circle => Some (Arc ax ay x y pen)
  | Arrow => Some (ArrowPath ax ay x y pen)
  | Text => None
  end.

Definition isShapeTool (t : Tool) : bool :=
  match t with
  | Rectangle | Circle | Arrow => true
  | Brush | Text => false
  end.

(** one click with the text tool: pointer-down, then pointer-up *)
Definition textClicks (clicks : list (MouseEvent * Z)) : list Event :=
  flat_map (fun c => [MouseDown (fst c) (snd c); MouseUp]) clicks.

(** the cursor addresses a snapshot, or is [-1] on an empty history *)
Definition cursor_ok (s : State) : Prop :=
  -1 <= historyStep s < Z.of_nat (List.length (history s)) /\
  (history s = [] \/ 0 <= historyStep s).

(** one gesture with a drawing tool: pointer-down, moves, pointer-up *)
Definition gesture (down : MouseEvent) (now : Z) (moves : list MouseEvent) : list Event :=
  MouseDown down now :: map MouseMove moves ++ [MouseUp].

(** the segments joining consecutive points, starting from [(x0, y0)] *)
Fixpoint polyline (x0 y0 : jsnum) (pts : list (jsnum * jsnum)) (pen : Pen) : list Paint :=
  match pts with
  | [] => []
  | (x1, y1) :: rest => Segment x0 y0 x1 y1 pen :: polyline x1 y1 rest pen
  end.

(** the last point of a path that starts at [p0] *)
Definition lastPoint (p0 : jsnum * jsnum) (pts : list (jsnum * jsnum)) : jsnum * jsnum :=
  List.last pts p0.

End EditorTools.

(* ================================================================== *)
(** * Properties *)

(** ** The session: which image a stage works on *)

Section SessionProperties.

Import Page.

Lemma truthy_some (r : string) : r <> EmptyString -> Js.truthy (Some r) = true.
Proof.
  intros H. unfold Js.truthy.
  destruct (String.eqb_spec r EmptyString); [contradiction | reflexivity].
Qed.

Lemma or_none_l (b : option string) : None ||L b = b.
Proof. reflexivity. Qed.

Lemma or_some_l (r : string) (b : option string) :
  r <> EmptyString -> Some r ||L b = Some r.
Proof. intros H. unfold Js.or. now rewrite truthy_some. Qed.

(** Whatever was handed back last is the image the page shows. *)
Lemma currentImage_last_applied (a : Applied) (s : Session) :
  resultOf a <> EmptyString -> currentImage (commit a s) = Some (resultOf a).
Proof.
  intros H. unfold currentImage.
  destruct a as [r | r | r | r]; cbn [commit resultOf] in *;
    cbn [handleFileSelect handleCropComplete handleFiltersApply handleEditComplete
         editedImage filteredImage croppedImage uploadedImage];
    rewrite ?or_none_l, ?or_some_l; auto.
Qed.

(** C6.  The cropper is handed the image the page currently shows, which
    is the result applied last; completing the crop stores the new image
    as the cropped one and clears the filtered and the edited image, so it
    becomes the current image. *)
Theorem handleCropComplete_replaces_current
    (s : Session) (a : Applied) (croppedImageSrc : string) :
  resultOf a <> EmptyString ->
  croppedImageSrc <> EmptyString ->
  cropperSrc s = currentImage s /\
  cropperSrc (commit a s) = Some (resultOf a) /\
  let s' := handleCropComplete croppedImageSrc (commit a s) in
  croppedImage s' = Some croppedImageSrc /\
  filteredImage s' = None /\
  editedImage s' = None /\
  uploadedImage s' = uploadedImage (commit a s) /\
  currentImage s' = Some croppedImageSrc.
Proof.
  intros Ha Hc. split; [reflexivity|]. split.
  - change (cropperSrc (commit a s)) with (currentImage (commit a s)).
    now apply currentImage_last_applied.
  - cbn. repeat split.
    apply (currentImage_last_applied (Cropped croppedImageSrc)). exact Hc.
Qed.

Lemma handleCropComplete_replaces_current_witness :
  let s := commit (Uploaded "data:U") initialSession in
  cropperSrc (commit (Filtered "data:F") s) = Some "data:F"%string /\
  currentImage (handleCropComplete "data:C" (commit (Filtered "data:F") s))
    = Some "data:C"%string.
Proof.
  intros s.
  destruct (handleCropComplete_replaces_current s (Filtered "data:F") "data:C")
    as (_ & Hsrc & _ & _ & _ & _ & Hcur); [discriminate | discriminate |].
  split; [exact Hsrc | exact Hcur].
Defined.

(** The claim of C9 read as stated, that a second filter pass starts from
    the image the first one started from, fails after an edit: upload,
    annotate, filter, filter again. *)
Lemma filtersSrc_second_pass_drops_edit :
  let s := commit (Edited "data:E") (commit (Uploaded "data:U") initialSession) in
  filtersSrc s = Some "data:E"%string /\
  filtersSrc (handleFiltersApply "data:F" s) = Some "data:U"%string /\
  filtersSrc (handleFiltersApply "data:F" s) <> filtersSrc s.
Proof. cbn. repeat split. discriminate. Qed.

(** C9, amended.  The filter stage never reads the filtered image: its
    source is the edited image if there is one, else the cropped, else
    the uploaded one.  Applying filters clears the edited image, so the
    next filter pass starts from the cropped-or-uploaded image and
    replaces the earlier result; that is the source of the first pass
    exactly when no edited image was present then. *)
Theorem filtersSrc_ignores_filtered
    (s : Session) (v : option string) (filteredImageSrc : string) :
  filtersSrc (setFilteredImage v s) = filtersSrc s /\
  filtersSrc s =
    (if Js.truthy (editedImage s) then editedImage s
     else croppedImage s ||L uploadedImage s) /\
  filtersSrc (handleFiltersApply filteredImageSrc s)
    = croppedImage s ||L uploadedImage s /\
  filtersSrc (handleFiltersApply filteredImageSrc
                (handleFiltersApply filteredImageSrc s))
    = filtersSrc (handleFiltersApply filteredImageSrc s).
Proof.
  repeat split.
  unfold filtersSrc. unfold Js.or at 2.
  destruct (Js.truthy (editedImage s)) eqn:E; [|reflexivity].
  unfold Js.or. now rewrite E.
Qed.

End SessionProperties.

(** ** The crop region under dragging *)

Section CropperProperties.

Import Cropper.
Local Open Scope Q_scope.






End CropperProperties.

(** ** The display-to-buffer coordinate mapper *)

Section MapperProperties.

Import Js EditorTools.

Lemma Qsign_Eq_iff (q : Q) : Qsign q = Eq <-> (q == 0)%Q.
Proof. unfold Qsign. symmetry. apply Qeq_alt. Qed.

Lemma Qeq_bool_sign (q : Q) : Qeq_bool q 0 = true <-> Qsign q = Eq.
Proof. rewrite Qeq_bool_iff. symmetry. apply Qsign_Eq_iff. Qed.

(** a finite offset times a scale factor *)
Lemma mul_div_finite (p a b : Q) :
  Qeq_bool b 0 = false -> mul (Fin p) (div (Fin a) (Fin b)) = Fin (p * (a / b)).
Proof.
  intros H. unfold div.
  destruct (Qsign b) eqn:E; try reflexivity.
  apply Qeq_bool_sign in E. congruence.
Qed.

Lemma mul_div_zero (p a b : Q) :
  Qeq_bool b 0 = true -> is_finite (mul (Fin p) (div (Fin a) (Fin b))) = false.
Proof.
  intros H. apply Qeq_bool_sign in H. unfold div. rewrite H.
  destruct (Qsign a); cbn; unfold scale_inf; try reflexivity;
    destruct (Qsign p); reflexivity.
Qed.

(** The scenario of the specification: a 400 by 300 buffer shown at
    200 by 150, a click at display (50, 50) lands on buffer (100, 100). *)
Example getCanvasCoordinates_scale_two :
  exists bx by_,
    getCanvasCoordinates (Some (mkCanvas 400 300 []))
                         (mkMouseEvent 50 50 (mkRect 0 0 200 150))
      = (Fin bx, Fin by_) /\ (bx == 100)%Q /\ (by_ == 100)%Q.
Proof. eexists. eexists. split; [reflexivity|]. split; reflexivity. Qed.

(** A display box of zero width: the horizontal coordinate is infinite,
    the vertical one is scaled as usual, and the result is not (0, 0). *)
Lemma getCanvasCoordinates_zero_width_box :
  let r := getCanvasCoordinates (Some (mkCanvas 400 300 []))
                                (mkMouseEvent 50 50 (mkRect 0 0 0 150)) in
  fst r = PInf /\
  (exists by_, snd r = Fin by_ /\ (by_ == 100)%Q) /\
  r <> (Fin 0, Fin 0).
Proof.
  cbv zeta. split; [reflexivity|]. split.
  - eexists. split; reflexivity.
  - discriminate.
Qed.

(** C3, amended.  Only a missing canvas element is answered with (0, 0).
    With a canvas, each coordinate is the pointer offset times the ratio
    of buffer size to display size whenever that display dimension is not
    zero; a zero display dimension is divided by as it is, and the
    coordinate of that axis is then infinite or not a number. *)
Theorem getCanvasCoordinates_scales (canvas : Canvas) (e : MouseEvent) :
  getCanvasCoordinates None e = (Fin 0, Fin 0) /\
  let r := getCanvasCoordinates (Some canvas) e in
  let px := (clientX e - rectLeft (rect e))%Q in
  let py := (clientY e - rectTop (rect e))%Q in
  (if Qeq_bool (rectWidth (rect e)) 0
   then is_finite (fst r) = false
   else fst r = Fin (px * (inject_Z (width canvas) / rectWidth (rect e)))) /\
  (if Qeq_bool (rectHeight (rect e)) 0
   then is_finite (snd r) = false
   else snd r = Fin (py * (inject_Z (height canvas) / rectHeight (rect e)))).
Proof.
  split; [reflexivity|]. cbv zeta. unfold getCanvasCoordinates, sub. cbn [fst snd].
  split.
  - destruct (Qeq_bool (rectWidth (rect e)) 0) eqn:E.
    + now apply mul_div_zero.
    + now apply mul_div_finite.
  - destruct (Qeq_bool (rectHeight (rect e)) 0) eqn:E.
    + now apply mul_div_zero.
    + now apply mul_div_finite.
Qed.

End MapperProperties.

(** ** The snapshot history of the annotation editor *)

Section HistoryProperties.

Import Js EditorTools.

Ltac simp_cursor :=
  unfold cursor_ok in *; cbn [history historyStep] in *.

Lemma index_in_range {A : Type} (l : list A) (i : Z) :
  0 <= i < Z.of_nat (List.length l) -> exists a, index l i = Some a.
Proof.
  intros [Hlo Hhi]. unfold index.
  destruct (i <? 0) eqn:E; [apply Z.ltb_lt in E; lia|].
  destruct (nth_error l (Z.to_nat i)) eqn:N; [eauto|].
  apply nth_error_None in N. lia.
Qed.

Lemma slice0_firstn {A : Type} (l : list A) (e : Z) :
  0 <= e <= Z.of_nat (List.length l) ->
  slice0 l e = firstn (Z.to_nat e) l /\ Z.of_nat (List.length (slice0 l e)) = e.
Proof.
  intros [Hlo Hhi]. unfold slice0.
  destruct (e <? 0) eqn:E; [apply Z.ltb_lt in E; lia|].
  rewrite Z.min_l by lia. split; [reflexivity|].
  rewrite length_firstn. lia.
Qed.

Lemma index_firstn {A : Type} (l : list A) (n : nat) (i : Z) :
  i < Z.of_nat n -> index (firstn n l) i = index l i.
Proof.
  intros H. unfold index. destruct (i <? 0) eqn:E; [reflexivity|].
  apply Z.ltb_ge in E. rewrite nth_error_firstn.
  destruct (Z.to_nat i <? n)%nat eqn:F; [reflexivity|].
  apply Nat.ltb_ge in F. lia.
Qed.

Lemma index_app_l {A : Type} (l r : list A) (i : Z) :
  i < Z.of_nat (List.length l) -> index (l ++ r) i = index l i.
Proof.
  intros H. unfold index. destruct (i <? 0) eqn:E; [reflexivity|].
  apply Z.ltb_ge in E. apply nth_error_app1. lia.
Qed.

Lemma index_app_last {A : Type} (l : list A) (a : A) :
  index (l ++ [a]) (Z.of_nat (List.length l)) = Some a.
Proof.
  unfold index. destruct (Z.of_nat (List.length l) <? 0) eqn:E;
    [apply Z.ltb_lt in E; lia|].
  rewrite Nat2Z.id, nth_error_app2, Nat.sub_diag by lia. reflexivity.
Qed.

(** what [saveToHistory] does to a history whose cursor is in range *)
Lemma saveToHistory_spec (s : State) (canvas : Canvas) :
  canvasRef s = Some canvas ->
  -1 <= historyStep s < Z.of_nat (List.length (history s)) ->
  let s' := saveToHistory s in
  history s' = firstn (Z.to_nat (historyStep s + 1)) (history s) ++ [pixels canvas] /\
  historyStep s' = historyStep s + 1 /\
  Z.of_nat (List.length (history s')) = historyStep s + 2 /\
  canvasRef s' = canvasRef s /\ drawingState s' = drawingState s /\
  textElements s' = textElements s.
Proof.
  intros Hc Hr. unfold saveToHistory. rewrite Hc. cbn.
  destruct (slice0_firstn (history s) (historyStep s + 1)) as [E L]; [lia|].
  rewrite E. repeat split.
  rewrite length_app, <- E. cbn. lia.
Qed.

Lemma saveToHistory_cursor_ok (s : State) : cursor_ok s -> cursor_ok (saveToHistory s).
Proof.
  intros [Hr Hn]. destruct (canvasRef s) as [canvas|] eqn:Hc.
  - destruct (saveToHistory_spec s canvas Hc Hr) as (_ & Hs & Hl & _).
    unfold cursor_ok. rewrite Hs, Hl. split; [lia | right; lia].
  - unfold saveToHistory. rewrite Hc. now split.
Qed.

Lemma undo_cursor_ok (s : State) : cursor_ok s -> cursor_ok (undo s).
Proof.
  intros H. unfold undo. destruct (0 <? historyStep s) eqn:E; [|exact H].
  apply Z.ltb_lt in E. simp_cursor. split; [lia | right; lia].
Qed.

Lemma redo_cursor_ok (s : State) : cursor_ok s -> cursor_ok (redo s).
Proof.
  intros H. unfold redo.
  destruct (historyStep s <? Z.of_nat (List.length (history s)) - 1) eqn:E; [|exact H].
  apply Z.ltb_lt in E. simp_cursor. split; [lia | right; lia].
Qed.

Lemma draw_history (e : MouseEvent) (s : State) :
  history (draw e s) = history s /\ historyStep (draw e s) = historyStep s.
Proof.
  unfold draw. destruct (negb (isDrawing (drawingState s))); [now split|].
  destruct (canvasRef s); [|now split].
  destruct (getCanvasCoordinates _ e). now split.
Qed.

Lemma startDrawing_history (e : MouseEvent) (now : Z) (s : State) :
  history (startDrawing e now s) = history s /\
  historyStep (startDrawing e now s) = historyStep s.
Proof.
  unfold startDrawing. destruct (getCanvasCoordinates _ e).
  destruct (Tool_eqb _ _); now split.
Qed.

Lemma renderTextElements_history (s : State) :
  history (renderTextElements s) = history s /\
  historyStep (renderTextElements s) = historyStep s.
Proof. unfold renderTextElements. destruct (canvasRef s); now split. Qed.

Lemma pointerDown_history (e : MouseEvent) (now : Z) (s : State) :
  history (pointerDown e now s) = history s /\
  historyStep (pointerDown e now s) = historyStep s.
Proof.
  unfold pointerDown. destruct (Tool_eqb _ _).
  - destruct (renderTextElements_history (startDrawing e now s)) as [-> ->].
    apply startDrawing_history.
  - apply startDrawing_history.
Qed.

Lemma onImageLoad_cursor_ok (imageSrc : string) (imgW imgH : Z) (s : State) :
  cursor_ok s -> historyStep s = -1 -> cursor_ok (onImageLoad imageSrc imgW imgH s).
Proof.
  intros H Hs. unfold onImageLoad. destruct (canvasRef s); [|exact H].
  unfold saveToHistoryFrom, setCanvas, cursor_ok.
  cbn [canvasRef history historyStep]. rewrite Hs.
  unfold slice0. change (-1 + 1) with 0. cbn [Z.ltb Z.compare].
  rewrite Z.min_l by lia. cbn. split; [lia | right; lia].
Qed.

(** The cursor invariant of the history is kept by every event, an image
    load included as long as it arrives while the cursor is still [-1]. *)
Lemma handle_cursor_ok (ev : Event) (s : State) :
  cursor_ok s ->
  (isImageLoaded ev = true -> historyStep s = -1) ->
  cursor_ok (handle ev s).
Proof.
  intros H L. destruct ev; cbn [handle].
  - apply onImageLoad_cursor_ok; [exact H | now apply L].
  - unfold cursor_ok. destruct (pointerDown_history e now s) as [-> ->]. exact H.
  - unfold cursor_ok. destruct (draw_history e s) as [-> ->]. exact H.
  - unfold stopDrawing. destruct (isDrawing _); [|exact H].
    now apply saveToHistory_cursor_ok.
  - unfold stopDrawing. destruct (isDrawing _); [|exact H].
    now apply saveToHistory_cursor_ok.
  - now apply undo_cursor_ok.
  - now apply redo_cursor_ok.
  - exact H.
Qed.

Lemma run_cursor_ok (evs : list Event) (s : State) :
  loadFree evs = true -> cursor_ok s -> cursor_ok (run evs s).
Proof.
  revert s. induction evs as [|ev evs IH]; intros s L H; [exact H|].
  cbn in L. apply andb_true_iff in L as [L1 L2].
  cbn. apply IH; [exact L2|]. apply handle_cursor_ok; [exact H|].
  intros E. rewrite E in L1. discriminate.
Qed.

Lemma initialState_cursor_ok (c : option Canvas) : cursor_ok (initialState c).
Proof. unfold cursor_ok. cbn. split; [lia | now left]. Qed.

End HistoryProperties.

Section UndoRedoProperties.

Import Js EditorTools.

(** C4.  Saving a snapshot keeps the entries up to the cursor, drops every
    entry after it, appends the snapshot of the canvas and moves the cursor
    onto it; a pointer-up that ends a gesture does exactly this.  With three
    snapshots and the cursor on the last one, two undos followed by one
    committed brush stroke leave two snapshots: the first one and the new
    one. *)
Theorem saveToHistory_truncates_redo_branch (s : State) (canvas : Canvas) :
  canvasRef s = Some canvas ->
  cursor_ok s ->
  let s' := saveToHistory s in
  (history s' = firstn (Z.to_nat (historyStep s + 1)) (history s) ++ [pixels canvas] /\
   historyStep s' = historyStep s + 1 /\
   Z.of_nat (List.length (history s')) = historyStep s + 2 /\
   index (history s') (historyStep s') = Some (pixels canvas) /\
   (forall i, i <= historyStep s -> index (history s') i = index (history s) i) /\
   (isDrawing (drawingState s) = true ->
    history (stopDrawing s) = history s' /\
    historyStep (stopDrawing s) = historyStep s')) /\
  (forall (a b c : Snapshot) pen_color size x0 y0 texts txt font e1 now e2,
     let s3 := mkState (Some canvas) (mkDrawing Brush pen_color size false x0 y0)
                       texts txt font [a; b; c] 2 in
     let t := run [ClickUndo; ClickUndo; MouseDown e1 now; MouseMove e2; MouseUp] s3 in
     historyStep (run [ClickUndo; ClickUndo] s3) = 0 /\
     option_map pixels (canvasRef (run [ClickUndo; ClickUndo] s3)) = Some a /\
     historyStep t = 1 /\
     List.length (history t) = 2%nat /\
     exists stroke, history t = [a; a ++ [stroke]]).
Proof.
  intros Hc [Hr Hn]. split.
  - destruct (saveToHistory_spec s canvas Hc Hr) as (Hh & Hs & Hl & _).
    cbv zeta. split; [exact Hh|]. split; [exact Hs|]. split; [exact Hl|].
    assert (Hlen : Z.of_nat (List.length
              (firstn (Z.to_nat (historyStep s + 1)) (history s))) = historyStep s + 1).
    { rewrite length_firstn. lia. }
    split; [|split].
    + pose proof (index_app_last
                    (firstn (Z.to_nat (historyStep s + 1)) (history s))
                    (pixels canvas)) as K.
      rewrite Hlen in K. now rewrite Hh, Hs.
    + intros i Hi. rewrite Hh, index_app_l by lia. apply index_firstn. lia.
    + intros Hd. unfold stopDrawing. rewrite Hd.
      unfold saveToHistory. cbn. rewrite Hc. cbn. now split.
  - intros a b c pen_color size x0 y0 texts txt font e1 now e2. cbn.
    split; [reflexivity|]. split; [reflexivity|]. split; [reflexivity|].
    split; [reflexivity|]. eexists. reflexivity.
Qed.

Lemma saveToHistory_truncates_redo_branch_witness :
  let canvas := mkCanvas 4 3 [Picture "data:U"] in
  let s := undo (mkState (Some canvas)
                   (mkDrawing Brush "#ff0000" 5 false (Fin 0) (Fin 0)) [] "" 24
                   [[Picture "data:U"]; [Picture "data:V"]; [Picture "data:W"]] 2) in
  historyStep s = 1 /\
  List.length (history s) = 3%nat /\
  history (saveToHistory s) = [[Picture "data:U"]; [Picture "data:V"]; [Picture "data:V"]].
Proof.
  intros canvas s. split; [reflexivity|]. split; [reflexivity|].
  destruct (saveToHistory_truncates_redo_branch s
              (mkCanvas 4 3 [Picture "data:V"])) as ((Hh & _) & _).
  - reflexivity.
  - unfold cursor_ok. cbn. split; [lia | right; lia].
  - exact Hh.
Defined.

(** C5.  With the cursor above 0, undo moves it down by one and the canvas
    shows the snapshot at the new cursor; with the cursor below the last
    index, redo moves it up by one and the canvas shows that snapshot; at
    cursor 0 (or on an empty history) undo changes nothing, and so does
    redo at the last index.  Neither touches the history. *)
Theorem undo_redo_move_cursor (s : State) (canvas : Canvas) :
  canvasRef s = Some canvas ->
  cursor_ok s ->
  (0 < historyStep s ->
     historyStep (undo s) = historyStep s - 1 /\
     history (undo s) = history s /\
     exists img, index (history s) (historyStep s - 1) = Some img /\
                 canvasRef (undo s) = Some (mkCanvas (width canvas) (height canvas) img)) /\
  (historyStep s <= 0 -> undo s = s) /\
  (historyStep s < Z.of_nat (List.length (history s)) - 1 ->
     historyStep (redo s) = historyStep s + 1 /\
     history (redo s) = history s /\
     exists img, index (history s) (historyStep s + 1) = Some img /\
                 canvasRef (redo s) = Some (mkCanvas (width canvas) (height canvas) img)) /\
  (Z.of_nat (List.length (history s)) - 1 <= historyStep s -> redo s = s).
Proof.
  intros Hc [Hr Hn]. repeat split.
  - unfold undo. apply Z.ltb_lt in H. now rewrite H.
  - unfold undo. apply Z.ltb_lt in H. now rewrite H.
  - destruct (index_in_range (history s) (historyStep s - 1)) as [img Hi]; [lia|].
    exists img. split; [exact Hi|].
    unfold undo. apply Z.ltb_lt in H. rewrite H. cbn [canvasRef].
    unfold restoreFrom. now rewrite Hc, Hi.
  - intros H. unfold undo. apply Z.ltb_ge in H. now rewrite H.
  - unfold redo. apply Z.ltb_lt in H. now rewrite H.
  - unfold redo. apply Z.ltb_lt in H. now rewrite H.
  - destruct (index_in_range (history s) (historyStep s + 1)) as [img Hi]; [lia|].
    exists img. split; [exact Hi|].
    unfold redo. apply Z.ltb_lt in H. rewrite H. cbn [canvasRef].
    unfold restoreFrom. now rewrite Hc, Hi.
  - intros H. unfold redo. apply Z.ltb_ge in H. now rewrite H.
Qed.

Lemma undo_redo_move_cursor_witness :
  let canvas := mkCanvas 4 3 [Picture "data:W"] in
  let s := mkState (Some canvas)
             (mkDrawing Brush "#ff0000" 5 false (Fin 0) (Fin 0)) [] "" 24
             [[Picture "data:U"]; [Picture "data:V"]; [Picture "data:W"]] 2 in
  historyStep (undo s) = 1 /\ redo s = s /\
  option_map pixels (canvasRef (undo s)) = Some [Picture "data:V"].
Proof.
  intros canvas s.
  destruct (undo_redo_move_cursor s canvas) as (Hu & _ & _ & Hr).
  - reflexivity.
  - unfold cursor_ok. cbn. split; [lia | right; lia].
  - destruct Hu as (Hs & _ & img & Hi & Hcv); [cbn; lia|].
    split; [exact Hs|]. split; [apply Hr; cbn; lia|].
    rewrite Hcv. cbn in Hi. injection Hi as <-. reflexivity.
Defined.

End UndoRedoProperties.

(** ** Gestures: shape previews and text insertion *)

Section GestureProperties.

Import Js EditorTools.

Lemma fold_paint_pixels (ts : list TextElement) (c : Canvas) :
  fold_left (fun c t => paint (fillText t) c) ts c
  = mkCanvas (width c) (height c) (pixels c ++ map fillText ts).
Proof.
  revert c. induction ts as [|t ts IH]; intros c; cbn.
  - rewrite app_nil_r. now destruct c.
  - rewrite IH. cbn. now rewrite <- app_assoc.
Qed.

(** A move with a shape tool shows the snapshot at the cursor with one
    shape on top, whatever was on the canvas before; the shape is anchored
    at [lastX], [lastY], and the move then stores the pointer position
    there. *)
Lemma draw_shape_preview (e : MouseEvent) (s : State) (canvas : Canvas) (img : Snapshot) :
  isDrawing (drawingState s) = true ->
  isShapeTool (tool (drawingState s)) = true ->
  canvasRef s = Some canvas ->
  index (history s) (historyStep s) = Some img ->
  let d := drawingState s in
  let p := getCanvasCoordinates (canvasRef s) e in
  exists shape,
    shapeFor (tool d) (lastX d) (lastY d) (fst p) (snd p)
             (mkPen (color d) (brushSize d)) = Some shape /\
    canvasRef (draw e s) = Some (mkCanvas (width canvas) (height canvas) (img ++ [shape])) /\
    lastX (drawingState (draw e s)) = fst p /\
    lastY (drawingState (draw e s)) = snd p /\
    history (draw e s) = history s /\ historyStep (draw e s) = historyStep s.
Proof.
  intros Hd Ht Hc Hi. cbv zeta. unfold draw. rewrite Hd, Hc. cbn [negb].
  rewrite <- Hc. destruct (getCanvasCoordinates (canvasRef s) e) as [x y].
  cbn [fst snd].
  destruct (tool (drawingState s)); try discriminate;
    unfold preview; rewrite Hi; eexists; (split; [reflexivity|]);
    repeat split.
Qed.

(** C1 at a failing input.  A 400 by 300 image shown at its own size, the
    rectangle tool, pointer-down at (10, 10), then moves to (20, 20) and to
    (30, 30).  After the second move the canvas is the committed snapshot
    with a single rectangle on top, but that rectangle starts at (20, 20),
    the previous pointer position, and is 10 by 10; the rectangle from the
    pointer-down position would start at (10, 10) and be 20 by 20. *)
Theorem draw_rectangle_anchor_follows_pointer :
  let box := mkRect 0 0 400 300 in
  let s0 := run [ImageLoaded "data:U" 400 300; ClickTool Rectangle]
                (initialState (Some (mkCanvas 0 0 []))) in
  let s := run [MouseDown (mkMouseEvent 10 10 box) 0;
                MouseMove (mkMouseEvent 20 20 box);
                MouseMove (mkMouseEvent 30 30 box)] s0 in
  index (history s) (historyStep s) = Some [Picture "data:U"] /\
  exists x y w h pen,
    option_map pixels (canvasRef s)
      = Some [Picture "data:U"; StrokeRect (Fin x) (Fin y) (Fin w) (Fin h) pen] /\
    (x == 20 /\ y == 20 /\ w == 10 /\ h == 10)%Q /\
    ~ (x == 10 /\ y == 10 /\ w == 20 /\ h == 20)%Q.
Proof.
  cbv zeta. split; [reflexivity|].
  do 5 eexists. split; [reflexivity|]. split.
  - repeat split.
  - intros (H & _). vm_compute in H. discriminate.
Qed.

(** C10.  A pointer-down with the text tool appends one text element at
    the pointer position and paints every text element onto the canvas;
    the history, the cursor and the drawing state stay as they were, and a
    pointer-up that follows an idle state changes nothing.  So no sequence
    of text clicks changes the history or the cursor. *)
Theorem pointerDown_text_keeps_history (e : MouseEvent) (now : Z) (s : State) :
  tool (drawingState s) = Text ->
  let s' := pointerDown e now s in
  let p := getCanvasCoordinates (canvasRef s) e in
  let el := mkText now (fst p) (snd p) (textOr (newText s) "Sample Text")
                   (color (drawingState s)) (fontSize s) true in
  history s' = history s /\
  historyStep s' = historyStep s /\
  drawingState s' = drawingState s /\
  textElements s' = textElements s ++ [el] /\
  canvasRef s' =
    option_map (fun c => mkCanvas (width c) (height c)
                           (pixels c ++ map fillText (textElements s ++ [el])))
               (canvasRef s) /\
  (isDrawing (drawingState s) = false ->
     stopDrawing s' = s' /\
     forall clicks,
       history (run (textClicks clicks) s) = history s /\
       historyStep (run (textClicks clicks) s) = historyStep s).
Proof.
  intros Ht. cbv zeta.
  assert (Hstep : forall e now s, tool (drawingState s) = Text ->
            drawingState (pointerDown e now s) = drawingState s).
  { clear. intros e now s Ht. unfold pointerDown, startDrawing. rewrite Ht. cbn.
    destruct (getCanvasCoordinates (canvasRef s) e).
    unfold renderTextElements. cbn. now destruct (canvasRef s). }
  destruct (pointerDown_history e now s) as [Hh Hs].
  split; [exact Hh|]. split; [exact Hs|]. split; [now apply Hstep|].
  split; [|split].
  - unfold pointerDown, startDrawing. rewrite Ht. cbn.
    destruct (getCanvasCoordinates (canvasRef s) e).
    unfold renderTextElements. cbn. now destruct (canvasRef s).
  - unfold pointerDown, startDrawing. rewrite Ht. cbn.
    destruct (getCanvasCoordinates (canvasRef s) e).
    unfold renderTextElements. cbn. destruct (canvasRef s); [|reflexivity].
    cbn. now rewrite fold_paint_pixels.
  - intros Hi. split.
    + unfold stopDrawing. now rewrite Hstep, Hi.
    + clear Hh Hs. revert s Ht Hi.
      intros s Ht Hi clicks. revert s Ht Hi.
      induction clicks as [|[e1 n1] clicks IH]; intros s Ht Hi; [now split|].
      cbn. set (s1 := pointerDown e1 n1 s).
      assert (Hd1 : drawingState s1 = drawingState s) by now apply Hstep.
      assert (Hu : stopDrawing s1 = s1).
      { unfold stopDrawing. now rewrite Hd1, Hi. }
      rewrite Hu.
      destruct (IH s1) as [Ih1 Ih2]; [now rewrite Hd1 | now rewrite Hd1|].
      unfold textClicks in *. unfold run in *. rewrite Ih1, Ih2.
      apply pointerDown_history.
Qed.

Lemma pointerDown_text_keeps_history_witness :
  let box := mkRect 0 0 400 300 in
  let s := run [ImageLoaded "data:U" 400 300; ClickTool Text]
               (initialState (Some (mkCanvas 0 0 []))) in
  let s' := run [MouseDown (mkMouseEvent 40 50 box) 7; MouseUp] s in
  history s' = [[Picture "data:U"]] /\ historyStep s' = 0 /\
  List.length (textElements s') = 1%nat.
Proof.
  intros box s s'.
  destruct (pointerDown_text_keeps_history (mkMouseEvent 40 50 box) 7 s)
    as (Hh & Hs & _ & Ht & _ & Hup); [reflexivity|].
  destruct Hup as [Hup _]; [reflexivity|].
  unfold s'. cbn [run fold_left handle]. rewrite Hup, Hh, Hs, Ht.
  repeat split.
Defined.

End GestureProperties.

(** ** The filter composer *)

Section FilterProperties.

Import Filters.

(** the list [generateFilterString] builds for the defaults *)
Example generateFilterString_defaults :
  generateFilterString defaultFilters
  = [ mkCall fn_brightness 100 percent; mkCall fn_contrast 100 percent;
      mkCall fn_saturate 100 percent; mkCall fn_blur 0 px;
      mkCall fn_hue_rotate 0 deg; mkCall fn_sepia 0 percent;
      mkCall fn_grayscale 0 percent; mkCall fn_invert 0 percent ].
Proof. reflexivity. Qed.

Lemma generateFilterString_defaults_neutral :
  forallb neutral (generateFilterString defaultFilters) = true.
Proof. reflexivity. Qed.

Variable Buffer : Type.
Variable cssFilter : FilterCall -> Buffer -> Buffer.

Lemma drawImageFiltered_neutral (filter : list FilterCall) (img : Buffer) :
  (forall c b, neutral c = true -> cssFilter c b = b) ->
  forallb neutral filter = true ->
  drawImageFiltered Buffer cssFilter filter img = img.
Proof.
  intros Hn. unfold drawImageFiltered. revert img.
  induction filter as [|c filter IH]; intros img H; [reflexivity|].
  cbn in *. apply andb_true_iff in H as [Hc Hf].
  rewrite (Hn c img Hc). now apply IH.
Qed.

(** C7.  On a rasterizer that leaves a buffer unchanged under a filter
    function at its neutral argument, applying the default parameter set
    returns the input buffer. *)
Theorem applyFilters_default_identity (img : Buffer) :
  (forall c b, neutral c = true -> cssFilter c b = b) ->
  applyFilters Buffer cssFilter defaultFilters img = img.
Proof.
  intros Hn. unfold applyFilters.
  apply drawImageFiltered_neutral; [exact Hn|].
  apply generateFilterString_defaults_neutral.
Qed.

End FilterProperties.

Section SampleRasterizer.

Import Filters.
Local Open Scope Q_scope.

Lemma mix_0 (q : Q) (a b : Z) : Qeq_bool q 0 = true -> mix q a b = a.
Proof.
  intros H. apply Qeq_bool_iff in H. unfold mix.
  assert (E : inject_Z a + (inject_Z b - inject_Z a) * q / 100 == inject_Z a)
    by (rewrite H; field).
  rewrite E. apply Qfloor_Z.
Qed.

Lemma mix_100 (q : Q) (a b : Z) : Qeq_bool q 100 = true -> mix q a b = b.
Proof.
  intros H. apply Qeq_bool_iff in H. unfold mix.
  assert (E : inject_Z a + (inject_Z b - inject_Z a) * q / 100 == inject_Z b)
    by (rewrite H; field).
  rewrite E. apply Qfloor_Z.
Qed.

Lemma sampleFilter_neutral (c : FilterCall) (img : list Pixel) :
  neutral c = true -> sampleFilter c img = img.
Proof.
  intros H. unfold sampleFilter. rewrite <- (map_id img) at 2.
  apply map_ext. intros [[r g] b]. unfold neutral in H. unfold samplePixel.
  destruct (fn c), (unit c); try discriminate;
    rewrite ?(mix_0 _ _ _ H), ?(mix_100 _ _ _ H); reflexivity.
Qed.

Lemma applyFilters_default_identity_witness :
  applyFilters (list Pixel) sampleFilter defaultFilters
               [(12, 200, 7); (255, 0, 128)]%Z
  = [(12, 200, 7); (255, 0, 128)]%Z.
Proof.
  apply (applyFilters_default_identity (list Pixel) sampleFilter).
  exact sampleFilter_neutral.
Defined.

End SampleRasterizer.

(** ** Export dimensions under the aspect-ratio lock *)

Section DownloadProperties.

Import Download.


End DownloadProperties.

Section Download64Properties.

Import Download64.

(** C8.  With the lock on, a new width sets the height to the product of
    the width and the original image's height-to-width ratio, computed in
    binary64 and rounded by [Math.round], and a new height sets the width
    likewise; the dimensions shown before play no part.  An original of 1600
    by 900 and a width of 800 give a height of 450. *)
Theorem updateWidth_uses_original_ratio (s : State) (w h : B64.float) :
  Download.maintainAspectRatio (settings s) = true ->
  let ow := Download.width (originalDimensions s) in
  let oh := Download.height (originalDimensions s) in
  (0 < ow ->
     customDimensions (updateWidth w s)
       = mkNumbers w (B64.Math_round (B64.mul w (B64.div (B64.ofZ oh) (B64.ofZ ow)))) /\
     forall shown,
       customDimensions (updateWidth w (mkState (settings s) (originalDimensions s) shown))
       = customDimensions (updateWidth w s)) /\
  (0 < oh ->
     customDimensions (updateHeight h s)
       = mkNumbers (B64.Math_round (B64.mul h (B64.div (B64.ofZ ow) (B64.ofZ oh)))) h /\
     forall shown,
       customDimensions (updateHeight h (mkState (settings s) (originalDimensions s) shown))
       = customDimensions (updateHeight h s)) /\
  (ow = 1600 -> oh = 900 ->
     customDimensions (updateWidth (B64.ofZ 800) s)
       = mkNumbers (B64.ofZ 800) (B64.ofZ 450)).
Proof.
  intros Hm. cbv zeta. split; [|split].
  - intros Ho. apply Z.ltb_lt in Ho. unfold updateWidth.
    cbn [settings originalDimensions customDimensions]. rewrite Hm, Ho.
    split; reflexivity.
  - intros Ho. apply Z.ltb_lt in Ho. unfold updateHeight.
    cbn [settings originalDimensions customDimensions]. rewrite Hm, Ho.
    split; reflexivity.
  - intros Hw Hh. unfold updateWidth.
    cbn [settings originalDimensions customDimensions]. rewrite Hm, Hw, Hh.
    vm_compute. reflexivity.
Qed.

Lemma updateWidth_uses_original_ratio_witness :
  let s := applyPresetSize (B64.ofZ 1920) (B64.ofZ 1080)
             (onImageLoad 1600 900 initialState) in
  customDimensions s = mkNumbers (B64.ofZ 1920) (B64.ofZ 1080) /\
  customDimensions (updateWidth (B64.ofZ 800) s)
    = mkNumbers (B64.ofZ 800) (B64.ofZ 450) /\
  customDimensions (updateHeight (B64.ofZ 300) s)
    = mkNumbers (B64.ofZ 533) (B64.ofZ 300).
Proof.
  intros s.
  destruct (updateWidth_uses_original_ratio s (B64.ofZ 800) (B64.ofZ 300))
    as (Hw & Hh & Hs); [reflexivity|].
  split; [reflexivity|]. split.
  - apply Hs; reflexivity.
  - destruct Hh as (E & _); [reflexivity|]. rewrite E. vm_compute. reflexivity.
Defined.

(** The product is the binary64 one: for an original of 600 by 339 and a
    width of 300 the exact product is 169.5, the binary64 product is just
    below it, and the height is 169. *)
Example updateWidth_below_half :
  let s := onImageLoad 600 339 initialState in
  customDimensions (updateWidth (B64.ofZ 300) s)
    = mkNumbers (B64.ofZ 300) (B64.ofZ 169) /\
  Js.Math_round (300 * (339 / 600)) = 170.
Proof. cbv zeta. split; vm_compute; reflexivity. Qed.

Lemma mul_zero_round_falsy (x : B64.float) :
  B64.truthy (B64.Math_round (B64.mul (B64.ofZ 0) x)) = false.
Proof. destruct x; reflexivity. Qed.

Lemma canvasDimension_in_range (default z : Z) :
  0 <= z <= 2147483647 -> B64.canvasDimension default z = z.
Proof.
  intros H. unfold B64.canvasDimension.
  rewrite Z.mod_small by lia.
  destruct (z <=? 2147483647) eqn:E; [reflexivity|].
  apply Z.leb_gt in E. lia.
Qed.

Lemma canvasDimension_negative (default z : Z) :
  - 2147483648 <= z < 0 -> B64.canvasDimension default z = default.
Proof.
  intros H. unfold B64.canvasDimension.
  assert (M : z mod 2 ^ 32 = z + 2 ^ 32).
  { symmetry. apply Z.mod_unique with (q := -1); lia. }
  rewrite M.
  destruct (z + 2 ^ 32 <=? 2147483647) eqn:E; [|reflexivity].
  apply Z.leb_le in E. lia.
Qed.

Lemma downloadImage_size (s : State) :
  canvasWidth (downloadImage s)
    = exportDimension 300 (width (customDimensions s))
                      (Download.width (originalDimensions s)) /\
  canvasHeight (downloadImage s)
    = exportDimension 150 (height (customDimensions s))
                      (Download.height (originalDimensions s)).
Proof.
  unfold downloadImage. destruct (Download.format (settings s)); split; reflexivity.
Qed.

(** X13.  The export uses a custom dimension unless it is zero or NaN, and
    then the original one; the canvas takes the integer part of it, and
    falls back to its default of 300 by 150 for a negative one.  For an
    original image of at most 2^31 - 1 in each direction: with the lock on,
    emptying the width field (a width of 0) exports at the original size;
    with the lock off only the width falls back, next to the height that is
    shown.  An entered width between 0 and 2^31 - 1 is exported as
    entered, a negative one as 300. *)
Theorem downloadImage_zero_falls_back (s : State) :
  0 < Download.width (originalDimensions s) <= 2147483647 ->
  0 <= Download.height (originalDimensions s) <= 2147483647 ->
  let out := downloadImage (updateWidth (B64.ofZ 0) s) in
  canvasWidth out = Download.width (originalDimensions s) /\
  (Download.maintainAspectRatio (settings s) = true ->
     canvasHeight out = Download.height (originalDimensions s)) /\
  (Download.maintainAspectRatio (settings s) = false ->
     canvasHeight out
       = exportDimension 150 (height (customDimensions s))
                         (Download.height (originalDimensions s))) /\
  (forall w, B64.truthy w = true ->
     let cw := canvasWidth (downloadImage (updateWidth w s)) in
     cw = B64.canvasDimension 300 (B64.truncZ w) /\
     (0 <= B64.truncZ w <= 2147483647 -> cw = B64.truncZ w) /\
     (- 2147483648 <= B64.truncZ w < 0 -> cw = 300)).
Proof.
  intros Hw Hh. cbv zeta.
  assert (Hb : (0 <? Download.width (originalDimensions s)) = true)
    by (apply Z.ltb_lt; lia).
  destruct (downloadImage_size (updateWidth (B64.ofZ 0) s)) as [SW SH].
  rewrite SW, SH. clear SW SH.
  split; [|split; [|split]].
  - unfold updateWidth. rewrite Hb.
    destruct (Download.maintainAspectRatio (settings s));
      cbn [andb customDimensions originalDimensions width];
      unfold exportDimension; cbn [B64.ofZ B64.truthy];
      now apply canvasDimension_in_range; lia.
  - intros Hm. unfold updateWidth. rewrite Hb, Hm.
    cbn [andb customDimensions originalDimensions height].
    unfold exportDimension. rewrite mul_zero_round_falsy.
    apply canvasDimension_in_range. lia.
  - intros Hm. unfold updateWidth. rewrite Hb, Hm. reflexivity.
  - intros w Tw.
    destruct (downloadImage_size (updateWidth w s)) as [SW _].
    rewrite SW. clear SW.
    assert (E : exportDimension 300 (width (customDimensions (updateWidth w s)))
                  (Download.width (originalDimensions (updateWidth w s)))
                = B64.canvasDimension 300 (B64.truncZ w)).
    { unfold updateWidth. rewrite Hb.
      destruct (Download.maintainAspectRatio (settings s));
        cbn [andb customDimensions originalDimensions width];
        unfold exportDimension; now rewrite Tw. }
    rewrite E. split; [reflexivity|]. split; intros R.
    + now apply canvasDimension_in_range.
    + now apply canvasDimension_negative.
Qed.

Lemma downloadImage_zero_falls_back_witness :
  let s := applyPresetSize (B64.ofZ 1920) (B64.ofZ 1080)
             (onImageLoad 1600 900 initialState) in
  canvasWidth (downloadImage (updateWidth (B64.ofZ 0) s)) = 1600 /\
  canvasHeight (downloadImage (updateWidth (B64.ofZ 0) s)) = 900 /\
  canvasWidth (downloadImage (updateWidth (B64.ofZ (-5)) s)) = 300 /\
  canvasHeight (downloadImage (updateWidth (B64.ofZ (-5)) s)) = 150 /\
  canvasWidth (downloadImage (updateWidth (B64.ofZ 800) s)) = 800.
Proof.
  intros s.
  destruct (downloadImage_zero_falls_back s) as (A & B & _ & D);
    [cbn; lia | cbn; lia |].
  split; [exact A|]. split; [apply B; reflexivity|].
  split; [|split].
  - destruct (D (B64.ofZ (-5))) as (_ & _ & N); [reflexivity|].
    apply N. vm_compute. split; [discriminate | reflexivity].
  - vm_compute. reflexivity.
  - destruct (D (B64.ofZ 800)) as (_ & P & _); [reflexivity|].
    rewrite P; [vm_compute; reflexivity | vm_compute; split; discriminate].
Defined.

End Download64Properties.


(* ================================================================== *)
(** * Further properties of the components *)

(** ** The page: preview controls and stage sources *)

Section PageViewProperties.

Import Page.

Lemma rem25_step (z : Z) : 0 <= z -> Z.rem z 25 = 0 -> Z.rem (z + 25) 25 = 0.
Proof.
  intros Hz H. rewrite Z.rem_mod_nonneg in * by lia.
  rewrite <- (Z.mod_add z 1 25) in H by lia. now rewrite Z.mul_1_l in H.
Qed.

Lemma rem25_back (z : Z) : 25 <= z -> Z.rem z 25 = 0 -> Z.rem (z - 25) 25 = 0.
Proof.
  intros Hz H. rewrite Z.rem_mod_nonneg in * by lia.
  rewrite <- (Z.mod_add (z - 25) 1 25) by lia.
  now replace (z - 25 + 1 * 25) with z by lia.
Qed.

Lemma handle_view_ok (ev : Event) (s : Session) : view_ok s -> view_ok (handle ev s).
Proof.
  intros (Hz & Hm & Hr).
  destruct ev; cbn; try (now repeat split);
    try (repeat split; cbn; auto; lia).
  - (* zoom in *)
    unfold view_ok; cbn. split; [lia|]. split; [|exact Hr].
    destruct (Z.min_spec (zoom s + 25) 300) as [[_ ->] | [_ ->]];
      [apply rem25_step; lia | reflexivity].
  - (* zoom out *)
    unfold view_ok; cbn. split; [lia|]. split; [|exact Hr].
    destruct (Z.max_spec (zoom s - 25) 25) as [[_ ->] | [_ ->]];
      [reflexivity | apply rem25_back; lia].
  - (* rotate *)
    unfold view_ok; cbn. split; [lia|]. split; [exact Hm|].
    cbn in Hr. destruct Hr as [<- | [<- | [<- | [<- | []]]]]; cbn; auto.
Qed.

(** X1.  Whatever the user does on the page, the zoom stays between 25 and
    300 on a multiple of 25 and the rotation is 0, 90, 180 or 270. *)
Theorem run_view_ok (evs : list Event) : view_ok (run evs initialSession).
Proof.
  assert (G : forall s, view_ok s -> view_ok (run evs s)).
  { induction evs as [|ev evs IH]; intros s H; [exact H|].
    cbn. apply IH. now apply handle_view_ok. }
  apply G. unfold view_ok. cbn. split; [lia|]. split; [reflexivity|]. auto.
Qed.

(** X2.  Four quarter turns bring the preview back: for a rotation in
    [0, 360) the session after four clicks on rotate is the session
    before, and fewer clicks never are. *)
Theorem handleRotate_four_turns (s : Session) :
  0 <= rotation s < 360 ->
  handleRotate (handleRotate (handleRotate (handleRotate s))) = s /\
  handleRotate s <> s /\
  handleRotate (handleRotate s) <> s /\
  handleRotate (handleRotate (handleRotate s)) <> s.
Proof.
  intros H. destruct s as [u c f e z r sc sf se sd]. cbn in *.
  unfold handleRotate, setView; cbn.
  assert (R : forall a, 0 <= a < 360 ->
            0 <= Z.rem (a + 90) 360 < 360 /\
            (Z.rem (a + 90) 360 = a + 90 \/ Z.rem (a + 90) 360 = a - 270)).
  { intros a Ha. rewrite Z.rem_mod_nonneg by lia.
    destruct (Z_lt_ge_dec a 270) as [E | E].
    - rewrite Z.mod_small by lia. lia.
    - replace (a + 90) with (a - 270 + 1 * 360) by lia.
      rewrite Z.mod_add, Z.mod_small by lia. lia. }
  destruct (R r H) as [B1 E1].
  set (r1 := Z.rem (r + 90) 360) in *.
  destruct (R r1 B1) as [B2 E2].
  set (r2 := Z.rem (r1 + 90) 360) in *.
  destruct (R r2 B2) as [B3 E3].
  set (r3 := Z.rem (r2 + 90) 360) in *.
  destruct (R r3 B3) as [B4 E4].
  set (r4 := Z.rem (r3 + 90) 360) in *.
  assert (K4 : r4 = r) by lia.
  assert (K1 : r1 <> r) by lia.
  assert (K2 : r2 <> r) by lia.
  assert (K3 : r3 <> r) by lia.
  split; [now rewrite K4|].
  repeat split; intros Q; injection Q; intros; contradiction.
Qed.

Lemma handleRotate_four_turns_witness :
  let s := handleRotate (handleRotate (handleRotate
             (handleZoomIn (commit (Uploaded "data:U") initialSession)))) in
  rotation s = 270 /\
  handleRotate (handleRotate (handleRotate (handleRotate s))) = s.
Proof.
  intros s. split; [reflexivity|].
  apply (handleRotate_four_turns s). cbn. lia.
Defined.

(** X3.  Zooming in and then out gives back the view when the zoom is
    between 25 and 275, and zooming out and then in when it is between 50
    and 300; at 300 zooming in changes nothing and at 25 zooming out
    changes nothing. *)
Theorem handleZoom_round_trip (s : Session) :
  25 <= zoom s <= 300 ->
  (zoom s <= 275 -> handleZoomOut (handleZoomIn s) = s) /\
  (50 <= zoom s -> handleZoomIn (handleZoomOut s) = s) /\
  (zoom s = 300 -> handleZoomIn s = s) /\
  (zoom s = 25 -> handleZoomOut s = s).
Proof.
  intros H. destruct s as [u c f e z r sc sf se sd]. cbn in *.
  unfold handleZoomIn, handleZoomOut, setView; cbn.
  repeat split; intros; f_equal; lia.
Qed.

Lemma handleZoom_round_trip_witness :
  let s := commit (Uploaded "data:U") initialSession in
  handleZoomOut (handleZoomIn s) = s /\ handleZoomIn (handleZoomOut s) = s.
Proof.
  intros s. destruct (handleZoom_round_trip s) as (A & B & _); [cbn; lia|].
  split; [apply A | apply B]; cbn; lia.
Defined.

(** X4.  The editor never reads the edited image: opened again after an
    edit it starts from the image the first edit started from, so the
    second edit replaces the first; opened after a filter it starts from
    the filtered image. *)
Theorem editorSrc_ignores_edited (s : Session) (r1 r2 : string) :
  r1 <> EmptyString ->
  r2 <> EmptyString ->
  editorSrc (handleEditComplete r1 s) = editorSrc s /\
  currentImage (handleEditComplete r2 (handleEditComplete r1 s)) = Some r2 /\
  editorSrc (handleFiltersApply r1 s) = Some r1 /\
  editorSrc (handleEditComplete r2 (handleFiltersApply r1 s)) = Some r1.
Proof.
  intros H1 H2. split; [reflexivity|]. split; [|split].
  - apply (currentImage_last_applied (Edited r2)). exact H2.
  - unfold editorSrc, handleFiltersApply.
    cbn [filteredImage croppedImage uploadedImage].
    now rewrite !or_some_l.
  - unfold editorSrc, handleFiltersApply, handleEditComplete.
    cbn [filteredImage croppedImage uploadedImage].
    now rewrite !or_some_l.
Qed.

Lemma editorSrc_ignores_edited_witness :
  let s := commit (Uploaded "data:U") initialSession in
  editorSrc (handleEditComplete "data:E" s) = Some "data:U"%string /\
  currentImage (handleEditComplete "data:E2" (handleEditComplete "data:E" s))
    = Some "data:E2"%string.
Proof.
  intros s.
  destruct (editorSrc_ignores_edited s "data:E" "data:E2") as (A & B & _);
    [discriminate | discriminate |].
  split; [rewrite A; reflexivity | exact B].
Defined.

(** X5.  After an upload and after a crop every stage is handed the same
    image, the one just produced, whatever the session held before.  "Choose
    Different Image" shows the upload screen but keeps a cropped, filtered
    or edited image as the current one; the next upload clears it. *)
Theorem upload_and_crop_synchronise (s : Session) (r : string) :
  r <> EmptyString ->
  (forall s', s' = handleFileSelect r s \/ s' = handleCropComplete r s
              \/ s' = handleFileSelect r (chooseDifferentImage s) ->
     cropperSrc s' = Some r /\ filtersSrc s' = Some r /\
     editorSrc s' = Some r /\ downloadSrc s' = Some r) /\
  stage (chooseDifferentImage s) = Upload /\
  (Js.truthy (editedImage s ||L filteredImage s ||L croppedImage s) = true ->
   currentImage (chooseDifferentImage s) = currentImage s).
Proof.
  intros H. split; [|split].
  - intros s' [-> | [-> | ->]];
      unfold cropperSrc, filtersSrc, editorSrc, downloadSrc, currentImage,
        handleFileSelect, handleCropComplete, chooseDifferentImage;
      cbn [editedImage filteredImage croppedImage uploadedImage];
      rewrite ?or_none_l, ?or_some_l by exact H; auto.
  - reflexivity.
  - intros T. unfold currentImage, chooseDifferentImage.
    cbn [editedImage filteredImage croppedImage uploadedImage].
    set (d := editedImage s ||L filteredImage s ||L croppedImage s) in *.
    unfold Js.or. now rewrite T.
Qed.

Lemma upload_and_crop_synchronise_witness :
  let s := commit (Edited "data:E") (commit (Filtered "data:F")
             (commit (Uploaded "data:U") initialSession)) in
  filtersSrc (handleCropComplete "data:C" s) = Some "data:C"%string /\
  editorSrc (handleFileSelect "data:V" (chooseDifferentImage s)) = Some "data:V"%string.
Proof.
  intros s.
  destruct (upload_and_crop_synchronise s "data:C") as (A & _); [discriminate|].
  destruct (upload_and_crop_synchronise s "data:V") as (B & _); [discriminate|].
  split.
  - apply (A (handleCropComplete "data:C" s)). right. left. reflexivity.
  - apply (B (handleFileSelect "data:V" (chooseDifferentImage s))). right. right. reflexivity.
Defined.

End PageViewProperties.

(** ** The crop region: dragging, presets, the mount effect, the commit *)

Section CropperGeometry.

Import Cropper.
Local Open Scope Q_scope.

(** X6.  A drag update forgets the updates before it: the region after
    two pointer-moves is the region after the second one alone.  Once the
    button is released a pointer-move changes nothing, and the release
    leaves the region where the last update put it. *)
Theorem handleMouseMove_last_wins (e1 e2 : MouseEvent) (s : State) :
  handleMouseMove e2 (handleMouseMove e1 s) = handleMouseMove e2 s /\
  handleMouseMove e2 (handleMouseUp s) = handleMouseUp s /\
  cropArea (handleMouseUp (handleMouseMove e1 s)) = cropArea (handleMouseMove e1 s).
Proof.
  destruct s as [a d start size [c|]]; destruct d; repeat split.
Qed.

End CropperGeometry.

Section CropperRegions.

Import Cropper.
Local Open Scope Q_scope.






(** a panorama of 1000 by 100 in a 400 by 400 container is displayed 40
    high, and the region starts 55 above the top *)
Example onImageLoad_region_panorama :
  let s := onImageLoad 1000 100 (initialState (Some (mkContainer 0 0 400 400))) in
  y (cropArea s) == - 55 /\ ~ contained (cropArea s) 400 400.
Proof.
  cbv zeta. split; [reflexivity|].
  intros (_ & H & _). vm_compute in H. apply H. reflexivity.
Qed.

End CropperRegions.


(** ** Export: dimensions, fallback and size estimate *)

Section ExportProperties.

Import Download.



(** X14.  For dimensions that are not negative and a quality between 0 and
    100, the estimate for WebP is at most the one for JPEG, which is at most
    the one for PNG; the PNG estimate is four bytes per pixel at any
    quality. *)
Theorem estimatedBytes_by_format (s : State) :
  0 <= width (customDimensions s) ->
  0 <= height (customDimensions s) ->
  0 <= quality (settings s) <= 100 ->
  (estimatedBytes (setFormat webp s) <= estimatedBytes (setFormat jpeg s))%Q /\
  (estimatedBytes (setFormat jpeg s) <= estimatedBytes (setFormat png s))%Q /\
  (estimatedBytes (setFormat png s)
   == inject_Z (4 * width (customDimensions s) * height (customDimensions s)))%Q.
Proof.
  intros Hw Hh [Hq0 Hq1].
  unfold estimatedBytes, setFormat, bytesPerPixel.
  cbn [settings customDimensions format quality].
  set (p := width (customDimensions s) * height (customDimensions s)).
  assert (Hp : 0 <= p) by (unfold p; nia).
  set (q := quality (settings s)) in *.
  assert (Pp : (0 <= inject_Z p)%Q) by (unfold Qle, inject_Z; cbn; lia).
  assert (Pq : (0 <= inject_Z q / 100)%Q).
  { apply Qle_shift_div_l; [reflexivity|]. unfold Qle, inject_Z; cbn; lia. }
  assert (Pq1 : (inject_Z q / 100 <= 1)%Q).
  { apply Qle_shift_div_r; [reflexivity|]. unfold Qle, inject_Z; cbn; lia. }
  set (t := (inject_Z q / 100)%Q) in *.
  split; [|split].
  - rewrite !(Qmult_comm (inject_Z p)). apply Qmult_le_compat_r; [lra | exact Pp].
  - rewrite !(Qmult_comm (inject_Z p)). apply Qmult_le_compat_r; [lra | exact Pp].
  - unfold p. rewrite !inject_Z_mult. ring.
Qed.

Lemma estimatedBytes_by_format_witness :
  let s := onImageLoad 1600 900 initialState in
  (estimatedBytes (setFormat jpeg s) <= estimatedBytes (setFormat png s))%Q /\
  (estimatedBytes (setFormat png s) == 5760000)%Q.
Proof.
  intros s.
  destruct (estimatedBytes_by_format s) as (_ & A & B); [cbn; lia | cbn; lia | cbn; lia|].
  split; [exact A | rewrite B; reflexivity].
Defined.

End ExportProperties.

(** ** Filter parameters *)

Section FilterParameterProperties.

Import Filters.

Variable Buffer : Type.
Variable cssFilter : FilterCall -> Buffer -> Buffer.

(** X16.  The filter list is made of neutral calls exactly when every
    parameter has the value of its default.  On a rasterizer that leaves a
    buffer unchanged under neutral calls, applying such a parameter set
    returns the input: after a reset, and after the preset "Original",
    whatever the sliders showed before.  No other preset is neutral. *)
Theorem applyFilters_identity_when_default (f : FilterValues) (img : Buffer) :
  (forall c b, neutral c = true -> cssFilter c b = b) ->
  forallb neutral (generateFilterString f) = isDefault f /\
  (isDefault f = true -> applyFilters Buffer cssFilter f img = img) /\
  applyFilters Buffer cssFilter (resetFilters f) img = img /\
  (forall name p, In (name, p) presetFilters ->
     isDefault (applyPreset p f) = String.eqb name "Original").
Proof.
  intros Hn.
  assert (E : forallb neutral (generateFilterString f) = isDefault f).
  { unfold isDefault, generateFilterString, neutral. cbn.
    now rewrite !andb_true_r. }
  split; [exact E|]. split; [|split].
  - intros D. unfold applyFilters.
    apply drawImageFiltered_neutral; [exact Hn | now rewrite E].
  - unfold applyFilters, resetFilters.
    apply drawImageFiltered_neutral; [exact Hn | reflexivity].
  - intros name p H. unfold applyPreset. cbn in H.
    repeat (destruct H as [H | H]; [injection H as <- <-; reflexivity|]).
    contradiction.
Qed.

End FilterParameterProperties.

Section FilterParameterWitness.

Import Filters.

Lemma applyFilters_identity_when_default_witness :
  let f := applyPreset defaultFilters (updateFilter k_blur 3 defaultFilters) in
  applyFilters (list Pixel) sampleFilter f [(12, 200, 7); (255, 0, 128)]
    = [(12, 200, 7); (255, 0, 128)] /\
  applyFilters (list Pixel) sampleFilter (updateFilter k_invert 100 f)
               [(12, 200, 7); (255, 0, 128)]
    = [(243, 55, 248); (0, 255, 127)].
Proof.
  intros f.
  destruct (applyFilters_identity_when_default (list Pixel) sampleFilter f
              [(12, 200, 7); (255, 0, 128)] sampleFilter_neutral) as (_ & A & _).
  split; [apply A; reflexivity | reflexivity].
Defined.

End FilterParameterWitness.

(** ** The editor: history under sequences of events *)

Section EditorHistoryProperties.

Import Js EditorTools.

(** X17.  When the image load is the first event, or there is none, the
    cursor is -1 on an empty history and otherwise the index of one of its
    snapshots, in every state the editor reaches.  The load has to come
    first: it cuts the history with the cursor of the first render. *)
Theorem reachable_cursor_ok
    (c : option Canvas) (imageSrc : string) (imgW imgH : Z) (evs : list Event) :
  loadFree evs = true ->
  let inv := fun s : State =>
    (history s = [] /\ historyStep s = -1) \/
    (0 <= historyStep s < Z.of_nat (List.length (history s))) in
  inv (run evs (initialState c)) /\
  inv (run (ImageLoaded imageSrc imgW imgH :: evs) (initialState c)).
Proof.
  intros L. cbv zeta.
  assert (G : forall s, cursor_ok s ->
            (history s = [] /\ historyStep s = -1) \/
            (0 <= historyStep s < Z.of_nat (List.length (history s)))).
  { intros s [Hr [Hn | Hp]].
    - left. split; [exact Hn|]. rewrite Hn in Hr. cbn in Hr. lia.
    - right. lia. }
  split; apply G.
  - apply run_cursor_ok; [exact L | apply initialState_cursor_ok].
  - change (run (ImageLoaded imageSrc imgW imgH :: evs) (initialState c))
      with (run evs (onImageLoad imageSrc imgW imgH (initialState c))).
    apply run_cursor_ok; [exact L|].
    apply onImageLoad_cursor_ok; [apply initialState_cursor_ok | reflexivity].
Qed.

Lemma reachable_cursor_ok_witness :
  let box := mkRect 0 0 400 300 in
  let s := run [ImageLoaded "data:U" 400 300;
                MouseDown (mkMouseEvent 10 10 box) 1; MouseMove (mkMouseEvent 20 20 box);
                MouseUp; MouseLeave; ClickUndo; ClickUndo; ClickRedo]
               (initialState (Some (mkCanvas 300 150 []))) in
  historyStep s = 1 /\ List.length (history s) = 2%nat.
Proof.
  intros box s.
  destruct (reachable_cursor_ok (Some (mkCanvas 300 150 [])) "data:U" 400 300
              [MouseDown (mkMouseEvent 10 10 box) 1; MouseMove (mkMouseEvent 20 20 box);
               MouseUp; MouseLeave; ClickUndo; ClickUndo; ClickRedo])
    as [_ [[_ H] | H]]; [reflexivity | discriminate H |].
  split; reflexivity.
Defined.

(** a stroke committed before the image has loaded: the load then leaves a
    history of one snapshot with the cursor at 1 *)
Example onImageLoad_after_commit :
  let box := mkRect 0 0 300 150 in
  let s := run [MouseDown (mkMouseEvent 10 10 box) 1; MouseUp;
                ImageLoaded "data:U" 400 300]
               (initialState (Some (mkCanvas 300 150 []))) in
  history s = [[Picture "data:U"]] /\ historyStep s = 1 /\
  index (history s) (historyStep s) = None.
Proof. cbv zeta. repeat split. Qed.

(** X18.  A pointer-up followed by the pointer leaving the canvas commits
    once: ending a gesture twice is ending it once. *)
Theorem stopDrawing_idempotent (s : State) :
  stopDrawing (stopDrawing s) = stopDrawing s /\
  isDrawing (drawingState (stopDrawing s)) = false /\
  (historyStep (stopDrawing s) = historyStep s \/
   historyStep (stopDrawing s) = historyStep s + 1).
Proof.
  unfold stopDrawing.
  destruct (isDrawing (drawingState s)) eqn:D.
  - unfold saveToHistory, setDrawingState. cbn [canvasRef].
    destruct (canvasRef s); cbn; repeat split; auto.
  - rewrite D. repeat split; auto.
Qed.

Lemma restoreFrom_shows (s : State) (canvas : Canvas) (i : Z) (img : Snapshot) :
  canvasRef s = Some canvas ->
  index (history s) i = Some img ->
  restoreFrom i s = Some (mkCanvas (width canvas) (height canvas) img).
Proof. intros Hc Hi. unfold restoreFrom. now rewrite Hc, Hi. Qed.

Lemma undo_moves (s : State) (canvas : Canvas) :
  canvasRef s = Some canvas ->
  cursor_ok s ->
  0 < historyStep s ->
  exists img,
    index (history s) (historyStep s - 1) = Some img /\
    undo s = mkState (Some (mkCanvas (width canvas) (height canvas) img))
                     (drawingState s) (textElements s) (newText s) (fontSize s)
                     (history s) (historyStep s - 1).
Proof.
  intros Hc [Hr _] Hp.
  destruct (index_in_range (history s) (historyStep s - 1)) as [img Hi]; [lia|].
  exists img. split; [exact Hi|].
  unfold undo. apply Z.ltb_lt in Hp. rewrite Hp.
  now rewrite (restoreFrom_shows s canvas _ img Hc Hi).
Qed.

Lemma redo_moves (s : State) (canvas : Canvas) :
  canvasRef s = Some canvas ->
  cursor_ok s ->
  historyStep s < Z.of_nat (List.length (history s)) - 1 ->
  exists img,
    index (history s) (historyStep s + 1) = Some img /\
    redo s = mkState (Some (mkCanvas (width canvas) (height canvas) img))
                     (drawingState s) (textElements s) (newText s) (fontSize s)
                     (history s) (historyStep s + 1).
Proof.
  intros Hc [Hr _] Hp.
  destruct (index_in_range (history s) (historyStep s + 1)) as [img Hi]; [lia|].
  exists img. split; [exact Hi|].
  unfold redo. apply Z.ltb_lt in Hp. rewrite Hp.
  now rewrite (restoreFrom_shows s canvas _ img Hc Hi).
Qed.

(** X19.  Undo followed by redo, and redo followed by undo, come back to
    the same cursor on the same history, and the canvas then shows the
    snapshot at that cursor: strokes and text painted since that snapshot
    was taken are gone from the canvas. *)
Theorem undo_redo_round_trip (s : State) (canvas : Canvas) :
  canvasRef s = Some canvas ->
  cursor_ok s ->
  (0 < historyStep s ->
     historyStep (redo (undo s)) = historyStep s /\
     history (redo (undo s)) = history s /\
     applyEdits (redo (undo s)) = index (history s) (historyStep s)) /\
  (historyStep s < Z.of_nat (List.length (history s)) - 1 ->
     historyStep (undo (redo s)) = historyStep s /\
     history (undo (redo s)) = history s /\
     (0 <= historyStep s ->
      applyEdits (undo (redo s)) = index (history s) (historyStep s))).
Proof.
  intros Hc Hok. pose proof Hok as [Hr Hn]. split.
  - intros Hp.
    destruct (undo_moves s canvas Hc Hok Hp) as (img & Hi & Eu).
    set (u := undo s) in *.
    assert (Hcu : canvasRef u = Some (mkCanvas (width canvas) (height canvas) img))
      by now rewrite Eu.
    assert (Hu : cursor_ok u) by (apply undo_cursor_ok; exact Hok).
    assert (Hhu : history u = history s) by now rewrite Eu.
    assert (Hsu : historyStep u = historyStep s - 1) by now rewrite Eu.
    destruct (redo_moves u _ Hcu Hu) as (img' & Hi' & Er); [rewrite Hhu, Hsu; lia|].
    rewrite Er. cbn. rewrite Hhu, Hsu in *.
    replace (historyStep s - 1 + 1) with (historyStep s) in * by lia.
    now rewrite Hi'.
  - intros Hp.
    destruct (redo_moves s canvas Hc Hok Hp) as (img & Hi & Er).
    set (u := redo s) in *.
    assert (Hcu : canvasRef u = Some (mkCanvas (width canvas) (height canvas) img))
      by now rewrite Er.
    assert (Hhu : history u = history s) by now rewrite Er.
    assert (Hsu : historyStep u = historyStep s + 1) by now rewrite Er.
    unfold undo. rewrite Hsu.
    replace (historyStep s + 1 - 1) with (historyStep s) by lia.
    destruct (0 <? historyStep s + 1) eqn:P.
    + cbn. split; [reflexivity|]. split; [exact Hhu|].
      intros H0. unfold restoreFrom. rewrite Hcu, Hhu.
      destruct (index_in_range (history s) (historyStep s)) as [im Him]; [lia|].
      now rewrite Him.
    + apply Z.ltb_ge in P. assert (history s = []) as Ee by (destruct Hn; [assumption | lia]).
      rewrite Ee in Hr, Hp. cbn in Hr, Hp. lia.
Qed.

Lemma undo_redo_round_trip_witness :
  let s := mkState (Some (mkCanvas 4 3 [Picture "data:W"; Picture "scribble"]))
             (mkDrawing Brush "#ff0000" 5 false (Fin 0) (Fin 0)) [] "" 24
             [[Picture "data:U"]; [Picture "data:V"]; [Picture "data:W"]] 2 in
  historyStep (redo (undo s)) = 2 /\
  applyEdits (redo (undo s)) = Some [Picture "data:W"].
Proof.
  intros s.
  destruct (undo_redo_round_trip s (mkCanvas 4 3 [Picture "data:W"; Picture "scribble"]))
    as [A _].
  - reflexivity.
  - unfold cursor_ok. cbn. split; [lia | right; lia].
  - destruct A as (A1 & _ & A3); [cbn; lia|]. split; [exact A1 | exact A3].
Defined.

(** X20.  After k undos, with k at most the cursor, the cursor is lower by
    exactly k, the history is untouched, and what "Apply" would hand back
    is the snapshot at the new cursor. *)
Theorem undo_k_times (k : nat) (s : State) (canvas : Canvas) :
  canvasRef s = Some canvas ->
  cursor_ok s ->
  Z.of_nat k <= historyStep s ->
  let t := run (repeat ClickUndo k) s in
  historyStep t = historyStep s - Z.of_nat k /\
  history t = history s /\
  ((0 < k)%nat -> applyEdits t = index (history s) (historyStep t)).
Proof.
  revert s canvas. induction k as [|k IH]; intros s canvas Hc Hok Hk; cbv zeta.
  - cbn. split; [lia|]. split; [reflexivity | lia].
  - change (run (repeat ClickUndo (S k)) s) with (run (repeat ClickUndo k) (undo s)).
    destruct (undo_moves s canvas Hc Hok) as (img & Hi & Eu); [lia|].
    assert (Hcu : canvasRef (undo s)
                  = Some (mkCanvas (width canvas) (height canvas) img))
      by now rewrite Eu.
    assert (Hhu : history (undo s) = history s) by now rewrite Eu.
    assert (Hsu : historyStep (undo s) = historyStep s - 1) by now rewrite Eu.
    destruct (IH (undo s) _ Hcu (undo_cursor_ok s Hok)) as (I1 & I2 & I3);
      [rewrite Hsu; lia|].
    rewrite I1, I2, Hhu, Hsu. split; [lia|]. split; [reflexivity|].
    intros _. destruct k as [|k'].
    + cbn. rewrite Eu. cbn. replace (historyStep s - 1 - 0) with (historyStep s - 1) by lia.
      now rewrite Hi.
    + rewrite I3 by lia. now rewrite I1, Hhu, Hsu.
Qed.

Lemma undo_k_times_witness :
  let s := mkState (Some (mkCanvas 4 3 [Picture "data:W"]))
             (mkDrawing Brush "#ff0000" 5 false (Fin 0) (Fin 0)) [] "" 24
             [[Picture "data:U"]; [Picture "data:V"]; [Picture "data:W"]] 2 in
  historyStep (run [ClickUndo; ClickUndo] s) = 0 /\
  applyEdits (run [ClickUndo; ClickUndo] s) = Some [Picture "data:U"].
Proof.
  intros s.
  destruct (undo_k_times 2 s (mkCanvas 4 3 [Picture "data:W"])) as (A & _ & C).
  - reflexivity.
  - unfold cursor_ok. cbn. split; [lia | right; lia].
  - cbn. lia.
  - split; [exact A|].
    change (run [ClickUndo; ClickUndo] s) with (run (repeat ClickUndo 2) s).
    rewrite C by lia. reflexivity.
Defined.

End EditorHistoryProperties.

(** ** The editor: gestures *)

Section EditorGestureProperties.

Import Js EditorTools.

Lemma run_app (a b : list Event) (s : State) : run (a ++ b) s = run b (run a s).
Proof. unfold run. apply fold_left_app. Qed.

Lemma coords_same_size (c c' : Canvas) (e : MouseEvent) :
  width c = width c' -> height c = height c' ->
  getCanvasCoordinates (Some c) e = getCanvasCoordinates (Some c') e.
Proof. intros Hw Hh. unfold getCanvasCoordinates. now rewrite Hw, Hh. Qed.

(** what a pointer-move leaves alone *)
Lemma draw_frame (e : MouseEvent) (s : State) (c : Canvas) :
  canvasRef s = Some c ->
  exists c',
    canvasRef (draw e s) = Some c' /\
    width c' = width c /\ height c' = height c /\
    tool (drawingState (draw e s)) = tool (drawingState s) /\
    color (drawingState (draw e s)) = color (drawingState s) /\
    brushSize (drawingState (draw e s)) = brushSize (drawingState s) /\
    isDrawing (drawingState (draw e s)) = isDrawing (drawingState s) /\
    history (draw e s) = history s /\
    historyStep (draw e s) = historyStep s.
Proof.
  intros Hc. unfold draw.
  destruct (isDrawing (drawingState s)) eqn:D; cbn [negb].
  - rewrite Hc. destruct (getCanvasCoordinates (Some c) e) as [x y].
    destruct (tool (drawingState s)); unfold preview, drawArrow;
      try destruct (index (history s) (historyStep s));
      eexists; cbn; repeat split; auto.
  - exists c. repeat split; auto.
Qed.

Lemma moves_frame (moves : list MouseEvent) (s : State) (c : Canvas) :
  canvasRef s = Some c ->
  let t := run (map MouseMove moves) s in
  exists c',
    canvasRef t = Some c' /\
    width c' = width c /\ height c' = height c /\
    tool (drawingState t) = tool (drawingState s) /\
    isDrawing (drawingState t) = isDrawing (drawingState s) /\
    history t = history s /\ historyStep t = historyStep s.
Proof.
  revert s c. induction moves as [|e moves IH]; intros s c Hc; cbv zeta.
  - exists c. repeat split; auto.
  - cbn [map run fold_left handle].
    destruct (draw_frame e s c Hc) as (c1 & H1 & Hw & Hh & Ht & _ & _ & Hd & Hh1 & Hs1).
    destruct (IH (draw e s) c1 H1) as (c2 & H2 & Hw2 & Hh2 & Ht2 & Hd2 & Hhi & Hst).
    exists c2. unfold run in *.
    repeat split; try congruence.
Qed.

Lemma pointerDown_starts (e : MouseEvent) (now : Z) (s : State) :
  tool (drawingState s) <> Text ->
  let d := drawingState s in
  let p := getCanvasCoordinates (canvasRef s) e in
  pointerDown e now s
  = setDrawingState (mkDrawing (tool d) (color d) (brushSize d) true (fst p) (snd p)) s.
Proof.
  intros Ht. cbv zeta. unfold pointerDown, startDrawing.
  destruct (getCanvasCoordinates (canvasRef s) e) as [x y].
  destruct (tool (drawingState s)); try contradiction; reflexivity.
Qed.

(** one gesture with a drawing tool commits one snapshot *)
Lemma gesture_commits (down : MouseEvent) (now : Z) (moves : list MouseEvent)
      (s : State) (c : Canvas) :
  canvasRef s = Some c ->
  cursor_ok s ->
  tool (drawingState s) <> Text ->
  let t := run (gesture down now moves) s in
  (exists c', canvasRef t = Some c') /\
  cursor_ok t /\
  tool (drawingState t) = tool (drawingState s) /\
  isDrawing (drawingState t) = false /\
  historyStep t = historyStep s + 1 /\
  Z.of_nat (List.length (history t)) = historyStep s + 2 /\
  (forall i, i <= historyStep s -> index (history t) i = index (history s) i).
Proof.
  intros Hc Hok Ht. cbv zeta. unfold gesture.
  change (run (MouseDown down now :: map MouseMove moves ++ [MouseUp]) s)
    with (run (map MouseMove moves ++ [MouseUp]) (pointerDown down now s)).
  rewrite run_app. rewrite (pointerDown_starts down now s Ht).
  set (s1 := setDrawingState _ s).
  assert (Hc1 : canvasRef s1 = Some c) by exact Hc.
  destruct (moves_frame moves s1 c Hc1) as (c2 & H2 & _ & _ & Ht2 & Hd2 & Hh2 & Hs2).
  set (s2 := run (map MouseMove moves) s1) in *.
  cbn [run fold_left handle]. unfold stopDrawing.
  change (isDrawing (drawingState s1)) with true in Hd2. rewrite Hd2.
  set (s3 := setDrawingState _ s2).
  assert (Hc3 : canvasRef s3 = Some c2) by exact H2.
  assert (Hr3 : -1 <= historyStep s3 < Z.of_nat (List.length (history s3))).
  { change (historyStep s3) with (historyStep s2).
    change (history s3) with (history s2). rewrite Hh2, Hs2. apply Hok. }
  destruct (saveToHistory_spec s3 c2 Hc3 Hr3) as (Eh & Es & El & Ec & Ed & _).
  change (historyStep s3) with (historyStep s2) in *.
  change (history s3) with (history s2) in *.
  change (historyStep s1) with (historyStep s) in *.
  change (history s1) with (history s) in *.
  rewrite Hs2 in *. rewrite Hh2 in *.
  split; [exists c2; now rewrite Ec|].
  split; [unfold cursor_ok; rewrite Es, El; split; [lia | right; destruct Hok; lia]|].
  split; [rewrite Ed; exact Ht2|]. split; [now rewrite Ed|].
  split; [exact Es|]. split; [exact El|].
  intros i Hi. rewrite Eh. destruct Hok as [Hr _].
  rewrite index_app_l by (rewrite length_firstn; lia).
  apply index_firstn. lia.
Qed.

(** X21.  Every completed gesture with a drawing tool moves the cursor up
    by one: after N gestures the cursor has advanced by N, it is on the last
    snapshot, and the snapshots up to the old cursor are as they were.
    Counted from the snapshot the image load stores at index 0, the cursor
    after N gestures is N. *)
Theorem gestures_advance_cursor
    (gs : list (MouseEvent * Z * list MouseEvent)) (s : State) (c : Canvas) :
  canvasRef s = Some c ->
  cursor_ok s ->
  tool (drawingState s) <> Text ->
  let t := run (flat_map (fun g => gesture (fst (fst g)) (snd (fst g)) (snd g)) gs) s in
  historyStep t = historyStep s + Z.of_nat (List.length gs) /\
  (gs <> [] -> Z.of_nat (List.length (history t)) = historyStep t + 1) /\
  (forall i, i <= historyStep s -> index (history t) i = index (history s) i).
Proof.
  revert s c. induction gs as [|[[down now] moves] gs IH]; intros s c Hc Hok Ht; cbv zeta.
  - cbn. split; [lia|]. split; [congruence | reflexivity].
  - cbn [flat_map fst snd]. rewrite run_app.
    destruct (gesture_commits down now moves s c Hc Hok Ht)
      as ((c1 & Hc1) & Hok1 & Ht1 & _ & Hs1 & Hl1 & Hi1).
    set (s1 := run (gesture down now moves) s) in *. clearbody s1.
    destruct (IH s1 c1 Hc1 Hok1) as (I1 & I2 & I3); [now rewrite Ht1|].
    split; [|split].
    + rewrite I1, Hs1. cbn [List.length]. lia.
    + intros _. destruct gs as [|g gs'].
      * cbn. rewrite Hl1, Hs1. lia.
      * apply I2. discriminate.
    + intros i Hi. rewrite I3 by lia. now apply Hi1.
Qed.

Lemma gestures_advance_cursor_witness :
  let box := mkRect 0 0 400 300 in
  let s := run [ImageLoaded "data:U" 400 300] (initialState (Some (mkCanvas 0 0 []))) in
  let t := run (gesture (mkMouseEvent 10 10 box) 1 [mkMouseEvent 20 20 box]
                ++ gesture (mkMouseEvent 30 30 box) 2 []) s in
  historyStep t = 2 /\ List.length (history t) = 3%nat.
Proof.
  intros box s t.
  destruct (gestures_advance_cursor
              [(mkMouseEvent 10 10 box, 1, [mkMouseEvent 20 20 box]);
               (mkMouseEvent 30 30 box, 2, [])] s
              (mkCanvas 400 300 [Picture "data:U"]))
    as (A & B & _).
  - reflexivity.
  - unfold cursor_ok. cbn. split; [lia | right; lia].
  - discriminate.
  - split; [exact A|]. apply Nat2Z.inj.
    etransitivity; [exact (B ltac:(discriminate))|]. rewrite A. reflexivity.
Defined.

End EditorGestureProperties.

Section EditorStrokeProperties.

Import Js EditorTools.

Lemma last_cons_default {A : Type} (a d : A) (l : list A) :
  List.last (a :: l) d = List.last l a.
Proof.
  revert a d. induction l as [|b l IH]; intros a d; [reflexivity|].
  change (List.last (a :: b :: l) d) with (List.last (b :: l) d).
  rewrite IH. symmetry. apply IH.
Qed.

Lemma brush_moves (moves : list MouseEvent) (st : State) (c : Canvas)
      (col : string) (bs : Z) (x y : jsnum) :
  canvasRef st = Some c ->
  drawingState st = mkDrawing Brush col bs true x y ->
  let pts := map (getCanvasCoordinates (Some c)) moves in
  let t := run (map MouseMove moves) st in
  canvasRef t = Some (mkCanvas (width c) (height c)
                        (pixels c ++ polyline x y pts (mkPen col bs))) /\
  drawingState t = mkDrawing Brush col bs true
                     (fst (lastPoint (x, y) pts)) (snd (lastPoint (x, y) pts)) /\
  history t = history st /\ historyStep t = historyStep st /\
  textElements t = textElements st.
Proof.
  revert st c x y. induction moves as [|e moves IH]; intros st c x y Hc Hd; cbv zeta.
  - cbn. rewrite app_nil_r. repeat split; auto. rewrite Hc. now destruct c.
  - cbn [map run fold_left handle].
    assert (E : draw e st
                = mkState (Some (paint (Segment x y (fst (getCanvasCoordinates (Some c) e))
                                          (snd (getCanvasCoordinates (Some c) e))
                                          (mkPen col bs)) c))
                          (mkDrawing Brush col bs true
                             (fst (getCanvasCoordinates (Some c) e))
                             (snd (getCanvasCoordinates (Some c) e)))
                          (textElements st) (newText st) (fontSize st)
                          (history st) (historyStep st)).
    { unfold draw. rewrite Hd, Hc. cbn [isDrawing negb tool lastX lastY color brushSize].
      now destruct (getCanvasCoordinates (Some c) e). }
    set (p := getCanvasCoordinates (Some c) e) in *.
    set (c1 := paint (Segment x y (fst p) (snd p) (mkPen col bs)) c) in *.
    destruct (IH (draw e st) c1 (fst p) (snd p)) as (I1 & I2 & I3 & I4 & I5);
      [now rewrite E | now rewrite E|].
    assert (M : map (getCanvasCoordinates (Some c1)) moves
                = map (getCanvasCoordinates (Some c)) moves).
    { apply map_ext. intros e'. now apply coords_same_size. }
    rewrite M in I1, I2. unfold run in *.
    rewrite I1, I2, I3, I4, I5, E. cbn [history historyStep textElements].
    split; [|split; [|now repeat split]].
    + unfold c1, paint. cbn [width height pixels polyline].
      destruct p as [px py]. cbn [fst snd polyline]. now rewrite <- app_assoc.
    + unfold lastPoint. rewrite last_cons_default. now destruct p.
Qed.

Lemma polyline_length (pts : list (jsnum * jsnum)) (x y : jsnum) (pen : Pen) :
  List.length (polyline x y pts pen) = List.length pts.
Proof.
  revert x y. induction pts as [|[x1 y1] pts IH]; intros x y; [reflexivity|].
  cbn. now rewrite IH.
Qed.

(** X22.  A brush gesture paints a connected path: one segment per
    pointer-move, each starting where the one before ended and the first at
    the pointer-down position, on top of what the canvas showed.  Nothing is
    stored before the pointer-up, which stores exactly that canvas after the
    snapshots up to the cursor. *)
Theorem brush_gesture_polyline
    (s : State) (c : Canvas) (down : MouseEvent) (now : Z) (moves : list MouseEvent) :
  canvasRef s = Some c ->
  tool (drawingState s) = Brush ->
  let d := drawingState s in
  let pen := mkPen (color d) (brushSize d) in
  let p0 := getCanvasCoordinates (Some c) down in
  let pts := map (getCanvasCoordinates (Some c)) moves in
  let stroke := pixels c ++ polyline (fst p0) (snd p0) pts pen in
  let t := run (MouseDown down now :: map MouseMove moves) s in
  option_map pixels (canvasRef t) = Some stroke /\
  history t = history s /\ historyStep t = historyStep s /\
  history (run (gesture down now moves) s)
    = slice0 (history s) (historyStep s + 1) ++ [stroke] /\
  List.length (polyline (fst p0) (snd p0) pts pen) = List.length moves.
Proof.
  intros Hc Ht. cbv zeta.
  assert (Hn : tool (drawingState s) <> Text) by (rewrite Ht; discriminate).
  change (run (MouseDown down now :: map MouseMove moves) s)
    with (run (map MouseMove moves) (pointerDown down now s)).
  unfold gesture.
  change (run (MouseDown down now :: map MouseMove moves ++ [MouseUp]) s)
    with (run (map MouseMove moves ++ [MouseUp]) (pointerDown down now s)).
  rewrite run_app, (pointerDown_starts down now s Hn), Hc, Ht.
  set (p0 := getCanvasCoordinates (Some c) down).
  set (s1 := setDrawingState _ s).
  destruct (brush_moves moves s1 c (color (drawingState s)) (brushSize (drawingState s))
              (fst p0) (snd p0)) as (M1 & M2 & M3 & M4 & _); [exact Hc | reflexivity|].
  set (s2 := run (map MouseMove moves) s1) in *.
  split; [now rewrite M1|]. split; [exact M3|]. split; [exact M4|]. split.
  - cbn [run fold_left handle]. unfold stopDrawing. rewrite M2. cbn [isDrawing].
    unfold saveToHistory, setDrawingState. cbn [canvasRef]. rewrite M1.
    cbn [history historyStep toDataURL pixels]. now rewrite M3, M4.
  - now rewrite polyline_length, length_map.
Qed.

Lemma brush_gesture_polyline_witness :
  let box := mkRect 0 0 400 300 in
  let s := run [ImageLoaded "data:U" 400 300] (initialState (Some (mkCanvas 0 0 []))) in
  let t := run (gesture (mkMouseEvent 10 10 box) 1
                        [mkMouseEvent 20 20 box; mkMouseEvent 30 10 box]) s in
  exists a b, history t = [[Picture "data:U"]; [Picture "data:U"; a; b]].
Proof.
  intros box s t.
  destruct (brush_gesture_polyline s (mkCanvas 400 300 [Picture "data:U"])
              (mkMouseEvent 10 10 box) 1
              [mkMouseEvent 20 20 box; mkMouseEvent 30 10 box])
    as (_ & _ & _ & H & _); [reflexivity | reflexivity|].
  eexists. eexists. unfold t. rewrite H. reflexivity.
Defined.

Lemma pointerDown_text_state (e : MouseEvent) (now : Z) (s : State) (c : Canvas) :
  tool (drawingState s) = Text ->
  canvasRef s = Some c ->
  let p := getCanvasCoordinates (Some c) e in
  let el := mkText now (fst p) (snd p) (textOr (newText s) "Sample Text")
                   (color (drawingState s)) (fontSize s) true in
  pointerDown e now s
  = mkState (Some (mkCanvas (width c) (height c)
                     (pixels c ++ map fillText (textElements s ++ [el]))))
            (drawingState s) (textElements s ++ [el]) (newText s) (fontSize s)
            (history s) (historyStep s).
Proof.
  intros Ht Hc. cbv zeta. unfold pointerDown, startDrawing. rewrite Ht, Hc.
  remember (getCanvasCoordinates (Some c) e) as p eqn:Ep. destruct p as [x y].
  cbn [Tool_eqb fst snd]. unfold renderTextElements, setCanvas.
  cbn [canvasRef drawingState textElements newText fontSize history historyStep].
  now rewrite fold_paint_pixels.
Qed.

(** X23.  Undo does not forget text: it puts the earlier snapshot on the
    canvas but leaves the list of text elements alone, and the next click
    with the text tool paints every one of them onto that snapshot again,
    together with the new one. *)
Theorem undo_keeps_text (s : State) (canvas : Canvas) (e : MouseEvent) (now : Z) :
  canvasRef s = Some canvas ->
  cursor_ok s ->
  0 < historyStep s ->
  tool (drawingState s) = Text ->
  textElements (undo s) = textElements s /\
  exists img el,
    index (history s) (historyStep s - 1) = Some img /\
    option_map pixels (canvasRef (undo s)) = Some img /\
    textElements (pointerDown e now (undo s)) = textElements s ++ [el] /\
    option_map pixels (canvasRef (pointerDown e now (undo s)))
      = Some (img ++ map fillText (textElements s ++ [el])) /\
    historyStep (pointerDown e now (undo s)) = historyStep s - 1.
Proof.
  intros Hc Hok Hp Ht.
  destruct (undo_moves s canvas Hc Hok Hp) as (img & Hi & Eu).
  rewrite Eu. split; [reflexivity|].
  exists img. eexists. split; [exact Hi|]. split; [reflexivity|].
  rewrite (pointerDown_text_state e now _
             (mkCanvas (width canvas) (height canvas) img)) by (cbn; auto).
  cbn. repeat split.
Qed.

Lemma undo_keeps_text_witness :
  let box := mkRect 0 0 400 300 in
  let s := run [ImageLoaded "data:U" 400 300; ClickTool Text;
                MouseDown (mkMouseEvent 40 50 box) 7; MouseUp;
                ClickTool Brush; MouseDown (mkMouseEvent 10 10 box) 8;
                MouseMove (mkMouseEvent 20 20 box); MouseUp; ClickTool Text]
               (initialState (Some (mkCanvas 0 0 []))) in
  historyStep s = 1 /\
  option_map pixels (canvasRef (undo s)) = Some [Picture "data:U"] /\
  List.length (textElements (undo s)) = 1%nat.
Proof.
  intros box s.
  destruct (undo_keeps_text s
              (mkCanvas 400 300
                 (nth 1 (history s) []))
              (mkMouseEvent 1 1 box) 9)
    as (A & img & el & Hi & Hu & _); try reflexivity.
  - unfold cursor_ok. vm_compute.
    split; [split; [discriminate | reflexivity] | right; discriminate].
  - split; [reflexivity|]. split.
    + rewrite Hu. cbn in Hi. injection Hi as <-. reflexivity.
    + rewrite A. reflexivity.
Defined.

End EditorStrokeProperties.



Section EditorShapeProperties.

Import Js EditorTools.

(** a pointer-move during a gesture stores the pointer position *)
Lemma draw_last (e : MouseEvent) (s : State) (c : Canvas) :
  canvasRef s = Some c ->
  isDrawing (drawingState s) = true ->
  lastX (drawingState (draw e s)) = fst (getCanvasCoordinates (Some c) e) /\
  lastY (drawingState (draw e s)) = snd (getCanvasCoordinates (Some c) e).
Proof.
  intros Hc Hd. unfold draw. rewrite Hd, Hc. cbn [negb].
  now destruct (getCanvasCoordinates (Some c) e).
Qed.

Lemma moves_track (moves : list MouseEvent) (s : State) (c : Canvas) :
  canvasRef s = Some c ->
  isDrawing (drawingState s) = true ->
  let t := run (map MouseMove moves) s in
  let q := lastPoint (lastX (drawingState s), lastY (drawingState s))
                     (map (getCanvasCoordinates (Some c)) moves) in
  lastX (drawingState t) = fst q /\ lastY (drawingState t) = snd q.
Proof.
  revert s c. induction moves as [|e moves IH]; intros s c Hc Hd; cbv zeta.
  - now split.
  - cbn [map run fold_left handle].
    destruct (draw_frame e s c Hc) as (c1 & H1 & Hw & Hh & _ & _ & _ & Hd1 & _).
    destruct (draw_last e s c Hc Hd) as [Lx Ly].
    destruct (IH (draw e s) c1 H1) as [I1 I2]; [now rewrite Hd1|].
    unfold run in *. rewrite I1, I2, Lx, Ly.
    assert (M : map (getCanvasCoordinates (Some c1)) moves
                = map (getCanvasCoordinates (Some c)) moves).
    { apply map_ext. intros e'. now apply coords_same_size. }
    rewrite M. unfold lastPoint. rewrite last_cons_default.
    now destruct (getCanvasCoordinates (Some c) e).
Qed.

Lemma moves_pen (moves : list MouseEvent) (s : State) (c : Canvas) :
  canvasRef s = Some c ->
  color (drawingState (run (map MouseMove moves) s)) = color (drawingState s) /\
  brushSize (drawingState (run (map MouseMove moves) s)) = brushSize (drawingState s).
Proof.
  revert s c. induction moves as [|e moves IH]; intros s c Hc; [now split|].
  cbn [map run fold_left handle].
  destruct (draw_frame e s c Hc) as (c1 & H1 & _ & _ & _ & Hco & Hbr & _).
  destruct (IH (draw e s) c1 H1) as [A B]. unfold run in *.
  split; congruence.
Qed.

(** X25.  A gesture with the rectangle, circle or arrow tool leaves one
    shape on top of the snapshot at the cursor, however many pointer-moves
    it had; that shape runs from the pointer position before the last move
    (the pointer-down position only when there was a single move) to the
    last pointer position, and it is what the pointer-up stores. *)
Theorem shape_gesture_spans_last_move
    (s : State) (c : Canvas) (img : Snapshot)
    (down : MouseEvent) (now : Z) (before : list MouseEvent) (e : MouseEvent) :
  canvasRef s = Some c ->
  isShapeTool (tool (drawingState s)) = true ->
  index (history s) (historyStep s) = Some img ->
  let d := drawingState s in
  let pen := mkPen (color d) (brushSize d) in
  let anchor := lastPoint (getCanvasCoordinates (Some c) down)
                          (map (getCanvasCoordinates (Some c)) before) in
  let p := getCanvasCoordinates (Some c) e in
  exists shape,
    shapeFor (tool d) (fst anchor) (snd anchor) (fst p) (snd p) pen = Some shape /\
    option_map pixels
      (canvasRef (run (MouseDown down now :: map MouseMove (before ++ [e])) s))
      = Some (img ++ [shape]) /\
    history (run (gesture down now (before ++ [e])) s)
      = slice0 (history s) (historyStep s + 1) ++ [img ++ [shape]].
Proof.
  intros Hc Hs Hi. cbv zeta.
  assert (Hn : tool (drawingState s) <> Text).
  { intros E. rewrite E in Hs. discriminate. }
  unfold gesture.
  change (run (MouseDown down now :: map MouseMove (before ++ [e]) ++ [MouseUp]) s)
    with (run (map MouseMove (before ++ [e]) ++ [MouseUp]) (pointerDown down now s)).
  change (run (MouseDown down now :: map MouseMove (before ++ [e])) s)
    with (run (map MouseMove (before ++ [e])) (pointerDown down now s)).
  rewrite run_app, map_app, run_app.
  rewrite (pointerDown_starts down now s Hn), Hc.
  set (p0 := getCanvasCoordinates (Some c) down).
  set (s1 := setDrawingState _ s).
  assert (Hc1 : canvasRef s1 = Some c) by exact Hc.
  assert (Hd1 : isDrawing (drawingState s1) = true) by reflexivity.
  destruct (moves_frame before s1 c Hc1) as (c2 & H2 & Hw2 & Hh2 & Ht2 & Hdr2 & Hh & Hst).
  destruct (moves_track before s1 c Hc1 Hd1) as [Lx Ly].
  set (s2 := run (map MouseMove before) s1) in *.
  change (lastX (drawingState s1)) with (fst p0) in Lx, Ly.
  change (lastY (drawingState s1)) with (snd p0) in Lx, Ly.
  replace (fst p0, snd p0) with p0 in Lx, Ly by now destruct p0.
  assert (Hi2 : index (history s2) (historyStep s2) = Some img).
  { rewrite Hh, Hst. exact Hi. }
  destruct (draw_shape_preview e s2 c2 img) as (shape & Sh & Cv & _ & _ & Hh3 & Hs3);
    [congruence | now rewrite Ht2 | exact H2 | exact Hi2 |].
  destruct (draw_frame e s2 c2 H2) as (c3 & _ & _ & _ & Ht3 & Hco3 & Hb3 & Hd3 & _).
  assert (K : getCanvasCoordinates (canvasRef s2) e = getCanvasCoordinates (Some c) e).
  { rewrite H2. apply coords_same_size; congruence. }
  rewrite K, Lx, Ly in Sh.
  assert (D2 : tool (drawingState s2) = tool (drawingState s)) by exact Ht2.
  destruct (moves_pen before s1 c Hc1) as [Col Bs].
  fold s2 in Col, Bs. rewrite D2, Col, Bs in Sh.
  change (color (drawingState s1)) with (color (drawingState s)) in Sh.
  change (brushSize (drawingState s1)) with (brushSize (drawingState s)) in Sh.
  exists shape. split; [exact Sh|].
  cbn [run fold_left handle map]. split; [now rewrite Cv|].
  unfold stopDrawing. rewrite Hd3, Hdr2, Hd1.
  unfold saveToHistory, setDrawingState. cbn [canvasRef]. rewrite Cv.
  cbn [history historyStep toDataURL pixels]. now rewrite Hh3, Hs3, Hh, Hst.
Qed.

Lemma shape_gesture_spans_last_move_witness :
  let box := mkRect 0 0 400 300 in
  let s := run [ImageLoaded "data:U" 400 300; ClickTool Circle]
               (initialState (Some (mkCanvas 0 0 []))) in
  let t := run (gesture (mkMouseEvent 10 10 box) 1
                        [mkMouseEvent 20 20 box; mkMouseEvent 30 30 box]) s in
  exists shape, history t = [[Picture "data:U"]; [Picture "data:U"; shape]].
Proof.
  intros box s t.
  destruct (shape_gesture_spans_last_move s (mkCanvas 400 300 [Picture "data:U"])
              [Picture "data:U"] (mkMouseEvent 10 10 box) 1
              [mkMouseEvent 20 20 box] (mkMouseEvent 30 30 box))
    as (shape & _ & _ & H); try reflexivity.
  exists shape. unfold t. exact H.
Defined.

End EditorShapeProperties.
